(** * AnytownUSA synthetic consumption generators: a shallow embedding

    Two Python scripts are modelled here:

    - [synthetic-generator-multi.py], the slot-grouped generator
      (module [SlotGen]);
    - [water-consumption-generator.py], the cluster generator
      (module [ClusterGen]).

    Conventions of the embedding.

    - Python floats are idealised as exact rationals [Q].  The only
      not-a-number that finite inputs can produce comes from [np.sqrt] of a
      negative covariance; it is modelled by [None] in [option Q] and
      followed through the comparisons that absorb it.
    - The process-global numpy generator is an explicit state [rng]: two
      infinite tapes (uniform deviates, standard normal deviates) and a
      read position in each.
    - Python exceptions are the [Raised] outcome of the monad [M]; the
      generator state survives an exception, as it does in Python.
    - JSON objects are records whose fields are [option]s ([None] = key
      absent) or association lists in file order. *)

From Stdlib Require Import ZArith QArith Qround Qabs List String Ascii Bool.
From Stdlib Require Import Lia Lra Permutation Sorted.
From Stdlib Require Import DecimalString Decimal.
Import ListNotations.

Local Open Scope Q_scope.

(** ** Python values and helpers *)

Module Py.

Definition Qlt_bool (a b : Q) : bool := negb (Qle_bool b a).

(** [max(a, b)] and [min(a, b)] of Python: the first argument is kept
    unless the second is strictly larger (smaller). *)
Definition max2 (a b : Q) : Q := if Qlt_bool a b then b else a.
Definition min2 (a b : Q) : Q := if Qlt_bool b a then b else a.

(** The same with a second argument that may be NaN: every comparison
    with NaN is false, so the first argument is kept. *)
Definition max2_nan (a : Q) (b : option Q) : Q :=
  match b with Some v => max2 a v | None => a end.
Definition min2_nan (a : Q) (b : option Q) : Q :=
  match b with Some v => min2 a v | None => a end.

(** [round(x)] to the nearest integer, ties to the even one. *)
Definition round_half_even (q : Q) : Z :=
  let f := Qfloor q in
  let r := q - inject_Z f in
  if Qlt_bool r (1 # 2) then f
  else if Qlt_bool (1 # 2) r then (f + 1)%Z
  else if Z.even f then f else (f + 1)%Z.

(** [round(x, 2)]. *)
Definition round2 (q : Q) : Q := round_half_even (q * 100) # 100.

(** [dict.get(k)] on a JSON object kept as an association list. *)
Fixpoint dict_get {V : Type} (k : string) (d : list (string * V)) : option V :=
  match d with
  | [] => None
  | (k', v) :: t => if String.eqb k k' then Some v else dict_get k t
  end.

(** [x in xs] for a list of integers. *)
Definition mem_Z (x : Z) (xs : list Z) : bool := existsb (Z.eqb x) xs.

(** [str(n)] and [int(s)] for integers in decimal notation. *)
Definition str_of_int (n : Z) : string := NilZero.string_of_int (Z.to_int n).
Definition int_of_str (s : string) : option Z :=
  option_map Z.of_int (NilZero.int_of_string s).

End Py.

(** ** Exceptions, the generator state and the monad threading both *)

Inductive exn : Type :=
| KeyError
| ValueError
| IndexError.

Inductive outcome (A : Type) : Type :=
| Returned (a : A)
| Raised (e : exn).
Arguments Returned {A} a.
Arguments Raised {A} e.

Record rng : Type := mk_rng {
  uniform_tape : nat -> Q;   (* successive results of the uniform generator *)
  normal_tape : nat -> Q;    (* successive standard normal deviates *)
  uniform_pos : nat;
  normal_pos : nat
}.

(** A generator is valid when its uniform deviates lie in [0, 1), as those
    of [np.random.random] do. *)
Definition valid_rng (g : rng) : Prop :=
  forall n, 0 <= uniform_tape g n /\ uniform_tape g n < 1.

Definition M (A : Type) : Type := rng -> outcome A * rng.

Definition ret {A} (a : A) : M A := fun g => (Returned a, g).
Definition raise {A} (e : exn) : M A := fun g => (Raised e, g).
Definition bind {A B} (m : M A) (k : A -> M B) : M B :=
  fun g => match m g with
           | (Returned a, g') => k a g'
           | (Raised e, g') => (Raised e, g')
           end.

(** [try: m except Exception: h]. *)
Definition try_except {A} (m : M A) (h : M A) : M A :=
  fun g => match m g with
           | (Returned a, g') => (Returned a, g')
           | (Raised _, g') => h g'
           end.

(** [d[k]]: a missing key raises [KeyError]. *)
Definition subscript {A} (o : option A) : M A :=
  match o with Some a => ret a | None => raise KeyError end.

(** [xs[i]]: an index out of range raises [IndexError]. *)
Definition index {A} (xs : list A) (i : nat) : M A :=
  match nth_error xs i with Some a => ret a | None => raise IndexError end.

Declare Scope monad_scope.
Delimit Scope monad_scope with monad.
Notation "x <- m ;; k" := (bind m (fun x => k))
  (at level 61, m at next level, right associativity) : monad_scope.
Notation "' p <- m ;; k" := (bind m (fun x => match x with p => k end))
  (at level 61, p pattern, m at next level, right associativity) : monad_scope.
Local Open Scope monad_scope.

(** ** The part of numpy the generators call *)

Module Np.

(** [np.random.random()]. *)
Definition random : M Q :=
  fun g => (Returned (uniform_tape g (uniform_pos g)),
            mk_rng (uniform_tape g) (normal_tape g)
                   (S (uniform_pos g)) (normal_pos g)).

Definition standard_normal : M Q :=
  fun g => (Returned (normal_tape g (normal_pos g)),
            mk_rng (uniform_tape g) (normal_tape g)
                   (uniform_pos g) (S (normal_pos g))).

(** [np.sqrt(x)]: NaN below zero, otherwise the root, here rounded down to
    a multiple of 2^-52 over the denominator. *)
Definition sqrt_bits : Z := 52.
Definition sqrt (x : Q) : option Q :=
  if Py.Qlt_bool x 0 then None
  else
    let n := Qnum x in
    let d := Z.pos (Qden x) in
    let s := Z.sqrt (n * d * 2 ^ (2 * sqrt_bits)) in
    Some (Qmake s (Z.to_pos (d * 2 ^ sqrt_bits))).

(** [np.random.normal(loc, scale)]: [loc + scale * z] for a standard
    normal deviate [z]; a negative scale raises [ValueError] before any
    draw, a NaN scale gives NaN. *)
Definition normal (loc : Q) (scale : option Q) : M (option Q) :=
  match scale with
  | None => _ <- standard_normal ;; ret None
  | Some s =>
      if Py.Qlt_bool s 0 then raise ValueError
      else z <- standard_normal ;; ret (Some (loc + s * z))
  end.

(** The same for a scale known to be a number. *)
Definition normal_q (loc scale : Q) : M Q :=
  if Py.Qlt_bool scale 0 then raise ValueError
  else z <- standard_normal ;; ret (loc + scale * z).

Definition sum (p : list Q) : Q := fold_right Qplus 0 p.

Fixpoint cumsum (acc : Q) (p : list Q) : list Q :=
  match p with
  | [] => []
  | x :: t => (acc + x) :: cumsum (acc + x) t
  end.

(** [cdf.searchsorted(u, side='right')] on a non-decreasing [cdf]. *)
Fixpoint searchsorted_right (cdf : list Q) (u : Q) : nat :=
  match cdf with
  | [] => O
  | c :: t => if Qle_bool c u then S (searchsorted_right t u) else O
  end.

(** Tolerance of the sum-to-one test of [choice]: the square root of the
    double-precision machine epsilon. *)
Definition atol : Q := 1 # (2 ^ 26).

Definition probabilities_ok (p : list Q) : bool :=
  forallb (fun x => Qle_bool 0 x) p
  && Qle_bool (Qabs (sum p - 1)) atol.

(** [np.random.choice(n, p=p)] for an integer population size [n]:
    [ValueError] when [n] is not positive, when [p] has another length,
    has a negative entry or does not sum to 1 within [atol]; otherwise one
    uniform deviate located in the cumulative weights divided by their
    total. *)
Definition choice_index (n : nat) (p : list Q) : M nat :=
  if (n =? 0)%nat then raise ValueError
  else if negb (List.length p =? n)%nat then raise ValueError
  else if negb (probabilities_ok p) then raise ValueError
  else
    u <- random ;;
    let total := sum p in
    ret (searchsorted_right (map (fun c => c / total) (cumsum 0 p)) u).

(** [np.random.choice(a, p=p)] for a list [a]. *)
Definition choice {A} (a : list A) (p : list Q) : M A :=
  i <- choice_index (List.length a) p ;;
  index a i.

End Np.

(** ** Timestamps

    A timestamp is a number of seconds since 1970-01-01T00:00:00, a
    Thursday. *)

Module Time.

Definition hour (t : Z) : Z := ((t mod 86400) / 3600)%Z.
Definition minute (t : Z) : Z := ((t mod 3600) / 60)%Z.

(** [datetime.weekday()]: Monday is 0. *)
Definition weekday (t : Z) : Z := ((t / 86400 + 3) mod 7)%Z.

Definition day_names : list string :=
  ["Monday"; "Tuesday"; "Wednesday"; "Thursday"; "Friday"; "Saturday";
   "Sunday"]%string.

(** [Timestamp.day_name()]. *)
Definition day_name (t : Z) : string :=
  nth (Z.to_nat (weekday t)) day_names EmptyString.

Definition digit (n : Z) : ascii := ascii_of_nat (48 + Z.to_nat n).
Definition two_digits (n : Z) : string :=
  String (digit (n / 10)) (String (digit (n mod 10)) EmptyString).

(** [Timestamp.strftime('%H:%M')]. *)
Definition strftime_HM (t : Z) : string :=
  (two_digits (hour t) ++ ":" ++ two_digits (minute t))%string.

(** [pd.date_range(start, end, freq='15min')]: [start], [start + 900], ...
    up to [end] included; empty when [end] is before [start]. *)
Definition date_range (start_date end_date : Z) : list Z :=
  if (end_date <? start_date)%Z then []
  else map (fun i => (start_date + 900 * Z.of_nat i)%Z)
           (seq 0 (Z.to_nat ((end_date - start_date) / 900) + 1)).

End Time.

(** ** The slot-grouped generator, [synthetic-generator-multi.py] *)

Module SlotGen.

(** *** Pattern file, slot-grouped schema *)

Record basic_stats_t : Type := mk_basic_stats {
  stat_mean : option Q;
  stat_std : option Q;
  stat_min : option Q;
  stat_max : option Q
}.

Record transitions_t : Type := mk_transitions {
  zero_to_non_zero : option Q;
  non_zero_to_zero : option Q
}.

Record time_pattern : Type := mk_time_pattern {
  gmm_means : option (list Q);
  gmm_weights : option (list Q);
  gmm_covariances : option (list Q);
  percentiles : option (list (string * Q));
  common_values : option Q;
  transitions : option transitions_t;
  zero_probability : option Q;
  basic_stats : option basic_stats_t
}.

Record daily_sequence_t : Type := mk_daily_sequence {
  peak_times : option (list Z);
  zero_periods : option (list Z)
}.

(** One day of the file: the slots keyed by ["HH:MM"], in file order, and
    the entry under the key [daily_sequence]. *)
Record day_patterns_t : Type := mk_day_patterns {
  slots : list (string * time_pattern);
  daily_sequence : option daily_sequence_t
}.

Definition patterns_t : Type := list (string * day_patterns_t).

Record reading : Type := mk_reading {
  OBJECTID : Z;
  TimeStamp : Z;
  Consumption : Q
}.

(** Truth value of a slot used as a condition: a dict is false when it has
    no key. *)
Definition truthy (p : time_pattern) : bool :=
  match p with
  | mk_time_pattern None None None None None None None None => false
  | _ => true
  end.

(** *** [generate_consumption_value] *)

(** The occupancy decision: one uniform deviate against the transition
    probability of the current state, the state being zero exactly when
    [previous_value == 0]. *)
Definition should_be_zero (pattern : time_pattern) (previous_value : Q)
  : M bool :=
  let is_currently_zero := Qeq_bool previous_value 0 in
  random_val <- Np.random ;;
  tr <- subscript (transitions pattern) ;;
  if is_currently_zero then
    p <- subscript (zero_to_non_zero tr) ;;
    ret (if Py.Qlt_bool random_val p then false else true)
  else
    p <- subscript (non_zero_to_zero tr) ;;
    ret (if Py.Qlt_bool random_val p then true else false).

(** The part below [# Generate non-zero value using mixture model]. *)
Definition sample_mixture (pattern : time_pattern) : M Q :=
  means <- subscript (gmm_means pattern) ;;
  weights <- subscript (gmm_weights pattern) ;;
  component <- Np.choice_index (List.length means) weights ;;
  mean <- index means component ;;
  covs <- subscript (gmm_covariances pattern) ;;
  cov <- index covs component ;;
  value <- Np.normal mean (Np.sqrt cov) ;;
  bs <- subscript (basic_stats pattern) ;;
  lo <- subscript (stat_min bs) ;;
  hi <- subscript (stat_max bs) ;;
  let value := Py.max2 lo (Py.min2_nan hi value) in
  u <- Np.random ;;
  value <- (if Py.Qlt_bool u (2 # 10)
            then subscript (common_values pattern)
            else ret value) ;;
  ret (Py.max2 0 value).

Definition generate_consumption_value
    (pattern : time_pattern) (previous_value : Q) : M Q :=
  zero <- should_be_zero pattern previous_value ;;
  if zero : bool then ret 0 else sample_mixture pattern.

(** *** [generate_meter_data]: the per-meter copy of the patterns *)

(** [x * (1 + np.random.normal(0, variation_factor))]. *)
Definition perturb (variation_factor x : Q) : M Q :=
  n <- Np.normal_q 0 variation_factor ;;
  ret (x * (1 + n)).

Fixpoint vary_means (variation_factor : Q) (ms : list Q) : M (list Q) :=
  match ms with
  | [] => ret []
  | m :: t =>
      m' <- perturb variation_factor m ;;
      t' <- vary_means variation_factor t ;;
      ret (m' :: t')
  end.

(** The dict display [varied_pattern = {...}], entries in source order. *)
Definition vary_pattern (variation_factor : Q) (tp : time_pattern)
  : M time_pattern :=
  means <- subscript (gmm_means tp) ;;
  means' <- vary_means variation_factor means ;;
  weights <- subscript (gmm_weights tp) ;;
  covs <- subscript (gmm_covariances tp) ;;
  pct <- subscript (percentiles tp) ;;
  cv <- subscript (common_values tp) ;;
  cv' <- perturb variation_factor cv ;;
  tr <- subscript (transitions tp) ;;
  zp <- subscript (zero_probability tp) ;;
  bs <- subscript (basic_stats tp) ;;
  mean <- subscript (stat_mean bs) ;;
  mean' <- perturb variation_factor mean ;;
  std <- subscript (stat_std bs) ;;
  lo <- subscript (stat_min bs) ;;
  hi <- subscript (stat_max bs) ;;
  ret {| gmm_means := Some means';
         gmm_weights := Some weights;
         gmm_covariances := Some covs;
         percentiles := Some pct;
         common_values := Some cv';
         transitions := Some tr;
         zero_probability := Some zp;
         basic_stats := Some {| stat_mean := Some mean';
                                stat_std := Some std;
                                stat_min := Some lo;
                                stat_max := Some hi |} |}.

Fixpoint vary_slots (variation_factor : Q) (sl : list (string * time_pattern))
  : M (list (string * time_pattern)) :=
  match sl with
  | [] => ret []
  | (time, tp) :: t =>
      tp' <- vary_pattern variation_factor tp ;;
      t' <- vary_slots variation_factor t ;;
      ret ((time, tp') :: t')
  end.

Definition vary_day (variation_factor : Q) (d : day_patterns_t)
  : M day_patterns_t :=
  sl <- vary_slots variation_factor (slots d) ;;
  ret {| slots := sl; daily_sequence := daily_sequence d |}.

(** The loop building [meter_patterns]; the key [global_patterns] is
    skipped. *)
Fixpoint vary_patterns (variation_factor : Q) (patterns : patterns_t)
  : M patterns_t :=
  match patterns with
  | [] => ret []
  | (day, d) :: t =>
      if String.eqb day "global_patterns" then vary_patterns variation_factor t
      else
        d' <- vary_day variation_factor d ;;
        t' <- vary_patterns variation_factor t ;;
        ret ((day, d') :: t')
  end.

(** *** [generate_meter_data]: the walk over the timestamps *)

(** The slot and the daily sequence used at [timestamp], when the test
    [time_pattern and 'daily_sequence' in day_patterns] succeeds. *)
Definition active_slot (meter_patterns : patterns_t) (timestamp : Z)
  : option (time_pattern * daily_sequence_t) :=
  let day := Time.day_name timestamp in
  let time := Time.strftime_HM timestamp in
  match Py.dict_get day meter_patterns with
  | None => None
  | Some day_patterns =>
      match Py.dict_get time (slots day_patterns) with
      | None => None
      | Some time_pattern =>
          if truthy time_pattern then
            match daily_sequence day_patterns with
            | Some ds => Some (time_pattern, ds)
            | None => None
            end
          else None
      end
  end.

(** The consumption drawn for a slot, before the final variation. *)
Definition modulated_value (time_pattern : time_pattern)
    (ds : daily_sequence_t) (hour : Z) (previous_value : Q) : M Q :=
  peak <- subscript (peak_times ds) ;;
  let is_peak_hour := Py.mem_Z hour peak in
  zero <- subscript (zero_periods ds) ;;
  let is_zero_hour := Py.mem_Z hour zero in
  if is_peak_hour then
    consumption <- generate_consumption_value time_pattern previous_value ;;
    if Qeq_bool consumption 0 then
      u <- Np.random ;;
      if Py.Qlt_bool u (7 # 10)
      then generate_consumption_value time_pattern previous_value
      else ret consumption
    else ret consumption
  else if is_zero_hour then
    u <- Np.random ;;
    if Py.Qlt_bool u (8 # 10) then ret 0
    else generate_consumption_value time_pattern previous_value
  else generate_consumption_value time_pattern previous_value.

(** One iteration of [for timestamp in date_range]: the consumption of
    the iteration and [previous_value] after it. *)
Definition slot_step (meter_patterns : patterns_t) (timestamp : Z)
    (previous_value : Q) : M (Q * Q) :=
  match active_slot meter_patterns timestamp with
  | Some (time_pattern, ds) =>
      consumption <-
        modulated_value time_pattern ds (Time.hour timestamp) previous_value ;;
      consumption <-
        (if Py.Qlt_bool 0 consumption then
           bs <- subscript (basic_stats time_pattern) ;;
           std <- subscript (stat_std bs) ;;
           variation <- Np.normal_q 0 (std * (1 # 10)) ;;
           ret (Py.max2 0 (consumption + variation))
         else ret consumption) ;;
      ret (consumption, consumption)
  | None => ret (0, previous_value)
  end.

(** The loop: the readings appended and the last [previous_value]. *)
Fixpoint walk (meter_patterns : patterns_t) (object_id : Z)
    (date_range : list Z) (previous_value : Q) : M (list reading * Q) :=
  match date_range with
  | [] => ret ([], previous_value)
  | timestamp :: rest =>
      ' (consumption, previous_value') <-
        slot_step meter_patterns timestamp previous_value ;;
      ' (data, final) <- walk meter_patterns object_id rest previous_value' ;;
      ret (mk_reading object_id timestamp (Py.round2 consumption) :: data,
           final)
  end.

Definition generate_meter_data (patterns : patterns_t)
    (start_date end_date : Z) (object_id : Z) (variation_factor : Q)
  : M (list reading) :=
  let date_range := Time.date_range start_date end_date in
  meter_patterns <- vary_patterns variation_factor patterns ;;
  ' (synthetic_data, _) <- walk meter_patterns object_id date_range 0 ;;
  ret synthetic_data.

(** *** [generate_synthetic_data] *)

(** Order of [sort_values(['TimeStamp', 'OBJECTID'])]. *)
Definition key_leb (a b : reading) : bool :=
  (TimeStamp a <? TimeStamp b)%Z
  || ((TimeStamp a =? TimeStamp b)%Z && (OBJECTID a <=? OBJECTID b)%Z).

Fixpoint insert (x : reading) (l : list reading) : list reading :=
  match l with
  | [] => [x]
  | h :: t => if key_leb x h then x :: h :: t else h :: insert x t
  end.

(** [DataFrame.sort_values], as a stable insertion sort on the key. *)
Definition sort_values (l : list reading) : list reading :=
  fold_right insert [] l.

(** The frames appended to [all_data]: the tasks taken in their order of
    completion, those that raised left out.  Task [i] generates meter
    [base_object_id + i] and sees the draws [task_rng i] of the shared
    generator. *)
Definition collect (patterns : patterns_t) (start_date end_date : Z)
    (base_object_id : Z) (variation_factor : Q) (task_rng : nat -> rng)
    (completion : list nat) : list (list reading) :=
  flat_map
    (fun i =>
       match fst (generate_meter_data patterns start_date end_date
                    (base_object_id + Z.of_nat i) variation_factor
                    (task_rng i)) with
       | Returned meter_data => [meter_data]
       | Raised _ => []
       end)
    completion.

(** The frame written to the output file.  [pd.concat] raises on an empty
    list of frames, [sort_values] on a frame without columns. *)
Definition generate_synthetic_data (patterns : patterns_t)
    (start_date end_date : Z) (base_object_id : Z) (variation_factor : Q)
    (task_rng : nat -> rng) (completion : list nat)
  : outcome (list reading) :=
  match collect patterns start_date end_date base_object_id variation_factor
          task_rng completion with
  | [] => Raised ValueError
  | all_data =>
      match List.concat all_data with
      | [] => Raised KeyError
      | final_df => Returned (sort_values final_df)
      end
  end.

End SlotGen.

(** ** The cluster generator, [water-consumption-generator.py] *)

Module ClusterGen.

(** *** Pattern file, cluster schema *)

Record gmm_t : Type := mk_gmm {
  means : option (list Q);
  weights : option (list Q);
  covars : option (list Q)
}.

(** An entry of [hourly_patterns] or [weekly_patterns]. *)
Record factor_t : Type := mk_factor {
  mean : option Q
}.

Record temporal_patterns_t : Type := mk_temporal_patterns {
  hourly_patterns : option (list (string * factor_t));
  weekly_patterns : option (list (string * factor_t))
}.

(** Distribution of the next state, keyed by its label. *)
Definition distribution : Type := list (string * Q).

Record cluster_pattern : Type := mk_cluster_pattern {
  gmm : option gmm_t;
  temporal_patterns : option temporal_patterns_t;
  transitions : option (list (string * distribution))
}.

Record patterns_data_t : Type := mk_patterns_data {
  cluster_probabilities : option (list (string * Q));
  patterns : option (list (string * cluster_pattern))
}.

(** A record of [generate_meter_data], and the same once
    [generate_synthetic_data] has added the meter. *)
Record reading : Type := mk_reading {
  TimeStamp : Z;
  Consumption : Q;
  Cluster : Z
}.

Record row : Type := mk_row {
  MeterID : Z;
  record : reading
}.

(** *** [assign_cluster] *)

Definition assign_cluster (cluster_probabilities : list (string * Q))
  : M string :=
  let clusters := map fst cluster_probabilities in
  let probabilities := map snd cluster_probabilities in
  Np.choice clusters probabilities.

(** *** [generate_consumption_state] *)

Definition default_distribution : distribution :=
  [("0", 1 # 2); ("1", 1 # 2)]%string.

(** [int(s)]: [ValueError] when [s] is not an integer numeral. *)
Definition int (s : string) : M Z :=
  match Py.int_of_str s with
  | Some n => ret n
  | None => raise ValueError
  end.

Fixpoint ints (keys : list string) : M (list Z) :=
  match keys with
  | [] => ret []
  | s :: t => n <- int s ;; ns <- ints t ;; ret (n :: ns)
  end.

Definition generate_consumption_state (current_state : Z)
    (transitions : list (string * distribution)) : M Z :=
  let probs :=
    match Py.dict_get (Py.str_of_int current_state) transitions with
    | Some d => d
    | None => default_distribution
    end in
  states <- ints (map fst probs) ;;
  let probabilities := map snd probs in
  Np.choice states probabilities.

(** *** [generate_consumption_value] *)

(** [patterns.get(str(k), {}).get('mean', 1.0)]. *)
Definition factor_of (table : list (string * factor_t)) (k : Z) : Q :=
  match Py.dict_get (Py.str_of_int k) table with
  | Some f => match mean f with Some m => m | None => 1 end
  | None => 1
  end.

(** The body of the [try]. *)
Definition sample_value (gmm_params : option gmm_t)
    (temporal_patterns : temporal_patterns_t) (hour day_of_week : Z) : M Q :=
  match gmm_params with
  | None => ret 0
  | Some g =>
      ms <- subscript (means g) ;;
      ws <- subscript (weights g) ;;
      component <- Np.choice_index (List.length ms) ws ;;
      m <- index ms component ;;
      cs <- subscript (covars g) ;;
      c <- index cs component ;;
      base_value <- Np.normal m (Np.sqrt c) ;;
      let hourly :=
        match hourly_patterns temporal_patterns with
        | Some t => t | None => [] end in
      let weekly :=
        match weekly_patterns temporal_patterns with
        | Some t => t | None => [] end in
      let hourly_factor := factor_of hourly hour in
      let weekly_factor := factor_of weekly day_of_week in
      variation <- Np.normal_q 0 (1 # 10) ;;
      let adjusted_value :=
        Py.max2_nan 0
          (option_map
             (fun b => b * (hourly_factor + weekly_factor) / 2 + variation)
             base_value) in
      ret (Py.round2 adjusted_value)
  end.

Definition generate_consumption_value (gmm_params : option gmm_t)
    (temporal_patterns : temporal_patterns_t) (hour day_of_week : Z) : M Q :=
  try_except
    (sample_value gmm_params temporal_patterns hour day_of_week)
    (ret 0).

(** *** [generate_meter_data] *)

Definition default_transitions : list (string * distribution) :=
  [("0", default_distribution)]%string.

Definition no_temporal_patterns : temporal_patterns_t :=
  {| hourly_patterns := None; weekly_patterns := None |}.

(** [for _ in range(num_periods)], as [periods] iterations. *)
Fixpoint walk (cluster_patterns : cluster_pattern) (cluster : string)
    (time_interval : Z) (periods : nat) (current_state : Z) (current_time : Z)
  : M (list reading) :=
  match periods with
  | O => ret []
  | S periods' =>
      let hour := Time.hour current_time in
      let day_of_week := Time.weekday current_time in
      current_state <-
        generate_consumption_state current_state
          (match transitions cluster_patterns with
           | Some t => t | None => default_transitions end) ;;
      consumption <-
        (if (current_state =? 0)%Z then ret 0
         else generate_consumption_value
                (gmm cluster_patterns)
                (match temporal_patterns cluster_patterns with
                 | Some t => t | None => no_temporal_patterns end)
                hour day_of_week) ;;
      cl <- int cluster ;;
      data <- walk cluster_patterns cluster time_interval periods'
                current_state (current_time + 60 * time_interval)%Z ;;
      ret ({| TimeStamp := current_time;
              Consumption := consumption;
              Cluster := cl |} :: data)
  end.

Definition generate_meter_data (patterns : list (string * cluster_pattern))
    (cluster : string) (start_date : Z) (num_periods : Z) (time_interval : Z)
  : M (list reading) :=
  cluster_patterns <- subscript (Py.dict_get cluster patterns) ;;
  walk cluster_patterns cluster time_interval (Z.to_nat num_periods)
       0%Z start_date.

(** *** [generate_synthetic_data] *)

(** The body of the inner [try] for one meter. *)
Definition one_meter (patterns_data : patterns_data_t) (meter_id : Z)
    (num_periods time_interval start_datetime : Z) : M (list row) :=
  probabilities <- subscript (cluster_probabilities patterns_data) ;;
  cluster <- assign_cluster probabilities ;;
  patterns <- subscript (patterns patterns_data) ;;
  meter_data <-
    generate_meter_data patterns cluster start_datetime num_periods
                        time_interval ;;
  ret (map (mk_row meter_id) meter_data).

(** [for meter_id in range(1, num_meters + 1)], counted down from
    [remaining] meters; a meter that raises is skipped. *)
Fixpoint meters (patterns_data : patterns_data_t)
    (num_periods time_interval start_datetime : Z)
    (remaining : nat) (meter_id : Z) : M (list row) :=
  match remaining with
  | O => ret []
  | S remaining' =>
      rows <- try_except
                (one_meter patterns_data meter_id num_periods time_interval
                           start_datetime)
                (ret []) ;;
      rest <- meters patterns_data num_periods time_interval start_datetime
                     remaining' (meter_id + 1)%Z ;;
      ret (rows ++ rest)
  end.

(** The rows of the frame written to the output file. *)
Definition generate_synthetic_data (patterns_data : patterns_data_t)
    (num_meters num_periods time_interval start_date : Z) : M (list row) :=
  meters patterns_data num_periods time_interval start_date
         (Z.to_nat num_meters) 1%Z.

End ClusterGen.

(** * Vocabulary of the properties *)

Module S := SlotGen.
Module C := ClusterGen.

(** The tapes of a generator never change, only the read positions. *)
Definition same_tapes (g g' : rng) : Prop :=
  uniform_tape g' = uniform_tape g /\ normal_tape g' = normal_tape g.

(** A computation that leaves the tapes alone. *)
Definition keeps_tapes {A} (m : M A) : Prop :=
  forall g, same_tapes g (snd (m g)).

(** Order on the key [(TimeStamp, OBJECTID)] of the slot-grouped frame. *)
Definition key_le (a b : S.reading) : Prop := S.key_leb a b = true.

(** The key [(TimeStamp, MeterID)] on the rows of the cluster frame. *)
Definition row_key_leb (a b : C.row) : bool :=
  (C.TimeStamp (C.record a) <? C.TimeStamp (C.record b))%Z
  || ((C.TimeStamp (C.record a) =? C.TimeStamp (C.record b))%Z
      && (C.MeterID a <=? C.MeterID b)%Z).

Definition row_key_le (a b : C.row) : Prop := row_key_leb a b = true.

(** The result of a run, the final generator state dropped. *)
Definition result {A} (m : M A) (g : rng) : outcome A := fst (m g).

(** * Example inputs *)

(** A generator whose uniform deviates are all 0.1 and whose normal
    deviates are all 0.5. *)
Definition ex_rng : rng := mk_rng (fun _ => 1 # 10) (fun _ => 1 # 2) 0 0.

(** A generator whose uniform deviates are all 0.9. *)
Definition ex_rng_high : rng := mk_rng (fun _ => 9 # 10) (fun _ => 1 # 2) 0 0.

(** A slot with one mixture component, always leaving the zero state. *)
Definition ex_slot : S.time_pattern :=
  {| S.gmm_means := Some [10];
     S.gmm_weights := Some [1];
     S.gmm_covariances := Some [4];
     S.percentiles := Some [];
     S.common_values := Some 3;
     S.transitions :=
       Some {| S.zero_to_non_zero := Some 1; S.non_zero_to_zero := Some 0 |};
     S.zero_probability := Some (1 # 2);
     S.basic_stats :=
       Some {| S.stat_mean := Some 10; S.stat_std := Some 1;
               S.stat_min := Some 0; S.stat_max := Some 20 |} |}.

Definition ex_daily_sequence : S.daily_sequence_t :=
  {| S.peak_times := Some [7%Z]; S.zero_periods := Some [3%Z] |}.

(** Thursday has slots at 00:00 and 00:15 and none at 00:30. *)
Definition ex_patterns : S.patterns_t :=
  [("Thursday"%string,
    {| S.slots := [("00:00"%string, ex_slot); ("00:15"%string, ex_slot)];
       S.daily_sequence := Some ex_daily_sequence |})].

Definition ex_cluster_pattern : C.cluster_pattern :=
  {| C.gmm := Some {| C.means := Some [10]; C.weights := Some [1];
                      C.covars := Some [4] |};
     C.temporal_patterns := None;
     C.transitions := None |}.

Definition ex_patterns_data : C.patterns_data_t :=
  {| C.cluster_probabilities := Some [("0"%string, 1)];
     C.patterns := Some [("0"%string, ex_cluster_pattern)] |}.

(** Generation order of the cluster frame: by meter, then by timestamp. *)
Definition meter_major_le (a b : C.row) : Prop :=
  (C.MeterID a < C.MeterID b)%Z
  \/ (C.MeterID a = C.MeterID b
      /\ (C.TimeStamp (C.record a) <= C.TimeStamp (C.record b))%Z).

(** A slot whose two mixture weights sum to 0.8. *)
Definition ex_slot_light_weights : S.time_pattern :=
  {| S.gmm_means := Some [10; 20];
     S.gmm_weights := Some [1 # 2; 3 # 10];
     S.gmm_covariances := Some [4; 4];
     S.percentiles := Some [];
     S.common_values := Some 3;
     S.transitions :=
       Some {| S.zero_to_non_zero := Some 1; S.non_zero_to_zero := Some 0 |};
     S.zero_probability := Some (1 # 2);
     S.basic_stats :=
       Some {| S.stat_mean := Some 10; S.stat_std := Some 1;
               S.stat_min := Some 0; S.stat_max := Some 20 |} |}.

(** The same weights in the cluster schema. *)
Definition ex_gmm_light_weights : C.gmm_t :=
  {| C.means := Some [10; 20]; C.weights := Some [1 # 2; 3 # 10];
     C.covars := Some [4; 4] |}.

(** A slot with an empty mixture. *)
Definition ex_slot_empty_mixture : S.time_pattern :=
  {| S.gmm_means := Some [];
     S.gmm_weights := Some [];
     S.gmm_covariances := Some [];
     S.percentiles := Some [];
     S.common_values := Some 3;
     S.transitions :=
       Some {| S.zero_to_non_zero := Some 1; S.non_zero_to_zero := Some 0 |};
     S.zero_probability := Some (1 # 2);
     S.basic_stats :=
       Some {| S.stat_mean := Some 10; S.stat_std := Some 1;
               S.stat_min := Some 0; S.stat_max := Some 20 |} |}.

(** A slot that defines no transitions. *)
Definition ex_slot_no_transitions : S.time_pattern :=
  {| S.gmm_means := Some [10];
     S.gmm_weights := Some [1];
     S.gmm_covariances := Some [4];
     S.percentiles := Some [];
     S.common_values := Some 3;
     S.transitions := None;
     S.zero_probability := Some (1 # 2);
     S.basic_stats :=
       Some {| S.stat_mean := Some 10; S.stat_std := Some 1;
               S.stat_min := Some 0; S.stat_max := Some 20 |} |}.

Definition ex_patterns_no_transitions : S.patterns_t :=
  [("Thursday"%string,
    {| S.slots := [("00:00"%string, ex_slot_no_transitions)];
       S.daily_sequence := Some ex_daily_sequence |})].

(** The weights fail the sum-to-one test of [np.random.choice]. *)
Definition off_unit_sum (ws : list Q) : Prop :=
  ~ Qabs (Np.sum ws - 1) <= Np.atol.

(** The uniform deviate that the generator returns next. *)
Definition next_uniform (g : rng) : Q := uniform_tape g (uniform_pos g).

(** The [i]-th normal deviate that the generator returns from now on. *)
Definition coming_normal (g : rng) (i : nat) : Q :=
  normal_tape g (i + normal_pos g).

(** The generator once [k] more normal deviates have been drawn. *)
Definition skip_normals (k : nat) (g : rng) : rng :=
  mk_rng (uniform_tape g) (normal_tape g) (uniform_pos g) (k + normal_pos g).

(** The generator once one more uniform deviate has been drawn. *)
Definition skip_uniform (g : rng) : rng :=
  mk_rng (uniform_tape g) (normal_tape g) (S (uniform_pos g)) (normal_pos g).

(** The factor [1 + np.random.normal(0, variation_factor)] made of the
    [i]-th coming normal deviate. *)
Definition variation (variation_factor : Q) (g : rng) (i : nat) : Q :=
  1 + (0 + variation_factor * coming_normal g i).

(** A slot that defines every key read when the per-meter copy is built. *)
Definition complete_slot (tp : S.time_pattern) : Prop :=
  S.gmm_means tp <> None /\ S.gmm_weights tp <> None
  /\ S.gmm_covariances tp <> None /\ S.percentiles tp <> None
  /\ S.common_values tp <> None /\ S.transitions tp <> None
  /\ S.zero_probability tp <> None
  /\ exists bs, S.basic_stats tp = Some bs
       /\ S.stat_mean bs <> None /\ S.stat_std bs <> None
       /\ S.stat_min bs <> None /\ S.stat_max bs <> None.

(** [tp] is a slot of a day of the file other than [global_patterns]. *)
Definition slot_of (patterns : S.patterns_t) (tp : S.time_pattern) : Prop :=
  exists day d time,
    In (day, d) patterns /\ String.eqb day "global_patterns" = false
    /\ In (time, tp) (S.slots d).

(** [tp'] is a per-meter copy of the slot [tp]. *)
Definition copy_of (vf : Q) (tp tp' : S.time_pattern) : Prop :=
  exists g1 g2, S.vary_pattern vf tp g1 = (Returned tp', g2).

(** A slot whose sampler, called in the zero state, can only return 0. *)
Definition silent (tp : S.time_pattern) : Prop :=
  forall g v g',
    valid_rng g ->
    S.generate_consumption_value tp 0 g = (Returned v, g') -> v = 0.

(** A slot that never leaves the zero state. *)
Definition stays_zero (tp : S.time_pattern) : Prop :=
  exists tr p,
    S.transitions tp = Some tr /\ S.zero_to_non_zero tr = Some p /\ p <= 0.

(** A slot whose mixture cannot be sampled: no component, or weights that
    fail the sum-to-one test. *)
Definition unusable_mixture (tp : S.time_pattern) : Prop :=
  S.gmm_means tp = Some []
  \/ exists ms ws,
       S.gmm_means tp = Some ms /\ S.gmm_weights tp = Some ws
       /\ off_unit_sum ws.

(** ** Further vocabulary *)

(** A slot whose sampler, called in the zero state by a generator of which
    [known] holds, can only return 0. *)
Definition silent_when (known : rng -> Prop) (tp : S.time_pattern) : Prop :=
  forall g v g',
    known g ->
    S.generate_consumption_value tp 0 g = (Returned v, g') -> v = 0.

(** Nothing is asked of the generator. *)
Definition any_rng (g : rng) : Prop := True.

(** The timestamp has a usable slot in the meter's patterns. *)
Definition has_slot (mp : S.patterns_t) (t : Z) : bool :=
  match S.active_slot mp t with
  | Some _ => true
  | None => false
  end.

(** The readings of the timestamps that have a slot. *)
Definition slot_readings (mp : S.patterns_t) (data : list S.reading)
  : list S.reading :=
  filter (fun r => has_slot mp (S.TimeStamp r)) data.

(** A number with at most two decimals. *)
Definition two_decimals (q : Q) : Prop := exists k : Z, q == k # 100.


(** The timestamps of [n] periods of [ti] minutes from [t]. *)
Definition period_starts (t ti : Z) (n : nat) : list Z :=
  map (fun i => (t + 60 * ti * Z.of_nat i)%Z) (seq 0 n).

(** A slot that never leaves the zero state. *)
Definition ex_slot_idle : S.time_pattern :=
  {| S.gmm_means := Some [10];
     S.gmm_weights := Some [1];
     S.gmm_covariances := Some [4];
     S.percentiles := Some [];
     S.common_values := Some 3;
     S.transitions :=
       Some {| S.zero_to_non_zero := Some 0; S.non_zero_to_zero := Some 0 |};
     S.zero_probability := Some (1 # 2);
     S.basic_stats :=
       Some {| S.stat_mean := Some 10; S.stat_std := Some 1;
               S.stat_min := Some 0; S.stat_max := Some 20 |} |}.

Definition ex_patterns_idle : S.patterns_t :=
  [("Thursday"%string,
    {| S.slots := [("00:00"%string, ex_slot_idle);
                   ("00:15"%string, ex_slot_idle)];
       S.daily_sequence := Some ex_daily_sequence |})].

(** Mixture weights that sum to 0.8, and an even chance of leaving the zero
    state. *)
Definition ex_slot_light_even : S.time_pattern :=
  {| S.gmm_means := Some [10; 20];
     S.gmm_weights := Some [1 # 2; 3 # 10];
     S.gmm_covariances := Some [4; 4];
     S.percentiles := Some [];
     S.common_values := Some 3;
     S.transitions :=
       Some {| S.zero_to_non_zero := Some (1 # 2);
               S.non_zero_to_zero := Some 0 |};
     S.zero_probability := Some (1 # 2);
     S.basic_stats :=
       Some {| S.stat_mean := Some 10; S.stat_std := Some 1;
               S.stat_min := Some 0; S.stat_max := Some 20 |} |}.

Definition ex_patterns_light_weights : S.patterns_t :=
  [("Thursday"%string,
    {| S.slots := [("00:00"%string, ex_slot_light_even);
                   ("00:15"%string, ex_slot_light_even)];
       S.daily_sequence := Some ex_daily_sequence |})].

(** The cluster labels of the pattern file. *)
Definition cluster_labels (pd : C.patterns_data_t) : list string :=
  match C.cluster_probabilities pd with
  | Some probabilities => map fst probabilities
  | None => []
  end.

(** A cluster without a mixture that can be sampled: no [gmm] entry or a
    null one, no [means] or no [weights], no component, or weights that
    fail the sum-to-one test. *)
Definition no_usable_mixture (cp : C.cluster_pattern) : Prop :=
  match C.gmm cp with
  | None => True
  | Some gp =>
      C.means gp = None \/ C.weights gp = None \/ C.means gp = Some []
      \/ exists ws, C.weights gp = Some ws /\ off_unit_sum ws
  end.

(** A pattern file of the cluster generator that yields no meter: a key
    read by the loop is missing, or the cluster probabilities fail the
    sum-to-one test. *)
Definition unusable_file (pd : C.patterns_data_t) : Prop :=
  C.cluster_probabilities pd = None
  \/ C.patterns pd = None
  \/ exists probabilities,
       C.cluster_probabilities pd = Some probabilities
       /\ off_unit_sum (map snd probabilities).

(** A cluster whose mixture has no component. *)
Definition ex_cluster_no_component : C.cluster_pattern :=
  {| C.gmm := Some {| C.means := Some []; C.weights := Some [];
                      C.covars := Some [] |};
     C.temporal_patterns := None;
     C.transitions := None |}.

(** A file whose cluster probabilities sum to 0.8. *)
Definition ex_patterns_data_light : C.patterns_data_t :=
  {| C.cluster_probabilities :=
       Some [("0"%string, 1 # 2); ("1"%string, 3 # 10)];
     C.patterns := Some [("0"%string, ex_cluster_pattern);
                         ("1"%string, ex_cluster_pattern)] |}.

(** What the slot-grouped generator reads of the pattern file: the values
    under [percentiles], [zero_probability] and the [mean] of the basic
    statistics are replaced by fixed ones, their presence being kept, and
    the entry [global_patterns] is left out. *)
Definition read_stats (bs : S.basic_stats_t) : S.basic_stats_t :=
  {| S.stat_mean := option_map (fun _ => 0) (S.stat_mean bs);
     S.stat_std := S.stat_std bs;
     S.stat_min := S.stat_min bs;
     S.stat_max := S.stat_max bs |}.

Definition read_slot (tp : S.time_pattern) : S.time_pattern :=
  {| S.gmm_means := S.gmm_means tp;
     S.gmm_weights := S.gmm_weights tp;
     S.gmm_covariances := S.gmm_covariances tp;
     S.percentiles := option_map (fun _ => []) (S.percentiles tp);
     S.common_values := S.common_values tp;
     S.transitions := S.transitions tp;
     S.zero_probability := option_map (fun _ => 0) (S.zero_probability tp);
     S.basic_stats := option_map read_stats (S.basic_stats tp) |}.

Definition read_slots (sl : list (string * S.time_pattern))
  : list (string * S.time_pattern) :=
  map (fun kv => (fst kv, read_slot (snd kv))) sl.

Definition read_day (d : S.day_patterns_t) : S.day_patterns_t :=
  {| S.slots := read_slots (S.slots d);
     S.daily_sequence := S.daily_sequence d |}.

Definition read_days (mp : S.patterns_t) : S.patterns_t :=
  map (fun kd => (fst kd, read_day (snd kd))) mp.

Definition days_copied (patterns : S.patterns_t) : S.patterns_t :=
  filter (fun kd => negb (String.eqb (fst kd) "global_patterns")) patterns.

Definition read_patterns (patterns : S.patterns_t) : S.patterns_t :=
  read_days (days_copied patterns).

(** Two runs end in the same generator state and with the same exception,
    or with results related by [R]. *)
Definition agree {A} (R : A -> A -> Prop) (x y : outcome A * rng) : Prop :=
  snd x = snd y
  /\ match fst x, fst y with
     | Returned a, Returned b => R a b
     | Raised e1, Raised e2 => e1 = e2
     | _, _ => False
     end.

(** [ex_patterns] with other percentiles, zero probability and mean, and a
    [global_patterns] entry. *)
Definition ex_slot_other : S.time_pattern :=
  {| S.gmm_means := Some [10];
     S.gmm_weights := Some [1];
     S.gmm_covariances := Some [4];
     S.percentiles := Some [("50"%string, 7)];
     S.common_values := Some 3;
     S.transitions :=
       Some {| S.zero_to_non_zero := Some 1; S.non_zero_to_zero := Some 0 |};
     S.zero_probability := Some (1 # 4);
     S.basic_stats :=
       Some {| S.stat_mean := Some 12; S.stat_std := Some 1;
               S.stat_min := Some 0; S.stat_max := Some 20 |} |}.

Definition ex_patterns_other : S.patterns_t :=
  [("global_patterns"%string,
    {| S.slots := [("overall"%string, ex_slot_empty_mixture)];
       S.daily_sequence := None |});
   ("Thursday"%string,
    {| S.slots := [("00:00"%string, ex_slot_other);
                   ("00:15"%string, ex_slot_other)];
       S.daily_sequence := Some ex_daily_sequence |})].

(** The transition probability that the sampler reads in the state given
    by [previous_value]. *)
Definition transition_read (tp : S.time_pattern) (previous_value : Q)
  : option Q :=
  match S.transitions tp with
  | None => None
  | Some tr =>
      if Qeq_bool previous_value 0 then S.zero_to_non_zero tr
      else S.non_zero_to_zero tr
  end.

(** A day whose hour 0 is a zero period. *)
Definition ex_patterns_night : S.patterns_t :=
  [("Thursday"%string,
    {| S.slots := [("00:00"%string, ex_slot); ("00:15"%string, ex_slot)];
       S.daily_sequence :=
         Some {| S.peak_times := Some [7%Z];
                 S.zero_periods := Some [0%Z] |} |})].

(** * Properties *)

(** ** Arithmetic of the Python helpers *)

Lemma Qlt_bool_true (a b : Q) : Py.Qlt_bool a b = true <-> a < b.
Proof.
  unfold Py.Qlt_bool. rewrite negb_true_iff. split; intro H.
  - apply Qnot_le_lt. intro L. apply Qle_bool_iff in L. congruence.
  - destruct (Qle_bool b a) eqn:E; [|reflexivity].
    apply Qle_bool_iff in E. exfalso. exact (Qlt_not_le _ _ H E).
Qed.

Lemma Qlt_bool_false (a b : Q) : Py.Qlt_bool a b = false <-> b <= a.
Proof.
  unfold Py.Qlt_bool. rewrite negb_false_iff. apply Qle_bool_iff.
Qed.

Lemma max2_lower (a b : Q) : a <= Py.max2 a b.
Proof.
  unfold Py.max2. destruct (Py.Qlt_bool a b) eqn:E.
  - apply Qlt_bool_true in E. apply Qlt_le_weak, E.
  - apply Qle_refl.
Qed.

Lemma max2_nan_lower (a : Q) (b : option Q) : a <= Py.max2_nan a b.
Proof.
  destruct b; simpl; [apply max2_lower | apply Qle_refl].
Qed.

Lemma round_half_even_lower (q : Q) : (Qfloor q <= Py.round_half_even q)%Z.
Proof.
  unfold Py.round_half_even.
  destruct (Py.Qlt_bool _ _); [lia|].
  destruct (Py.Qlt_bool _ _); [lia|].
  destruct (Z.even _); lia.
Qed.

Lemma round2_nonneg (q : Q) : 0 <= q -> 0 <= Py.round2 q.
Proof.
  intro H. unfold Py.round2.
  assert (F : (0 <= Qfloor (q * 100))%Z).
  { change 0%Z with (Qfloor 0). apply Qfloor_resp_le.
    apply Qmult_le_0_compat; [exact H | discriminate]. }
  pose proof (round_half_even_lower (q * 100)) as R.
  unfold Qle. simpl. lia.
Qed.

(** ** Reasoning in the monad *)

Lemma bind_returned {A B} (m : M A) (k : A -> M B) g b g' :
  bind m k g = (Returned b, g') ->
  exists a g1, m g = (Returned a, g1) /\ k a g1 = (Returned b, g').
Proof.
  unfold bind. destruct (m g) as [[a | e] g1]; intro H.
  - exists a, g1. split; [reflexivity | exact H].
  - discriminate.
Qed.

Lemma subscript_returned {A} (o : option A) g a g' :
  subscript o g = (Returned a, g') -> o = Some a /\ g' = g.
Proof.
  destruct o; simpl; unfold ret, raise; intro H; inversion H; auto.
Qed.

Lemma ret_returned {A} (x : A) g a g' :
  ret x g = (Returned a, g') -> a = x /\ g' = g.
Proof. unfold ret. intro H. inversion H. auto. Qed.

(** Split a successful [bind] in hypothesis [H]. *)
Ltac bind_inv H :=
  let a := fresh "a" in
  let g := fresh "g" in
  let E := fresh "E" in
  apply bind_returned in H; destruct H as (a & g & E & H).

Ltac ret_inv H :=
  let R := fresh "R" in
  let G := fresh "G" in
  apply ret_returned in H; destruct H as [R G];
  try (injection R as ? ?); subst.

Lemma try_except_returned {A} (m h : M A) g a g' :
  try_except m h g = (Returned a, g') ->
  m g = (Returned a, g')
  \/ exists e g1, m g = (Raised e, g1) /\ h g1 = (Returned a, g').
Proof.
  unfold try_except. destruct (m g) as [[x | e] g1]; intro H.
  - left. exact H.
  - right. exists e, g1. auto.
Qed.

(** ** Consumption values are never negative *)

Lemma slot_sample_mixture_nonneg (p : S.time_pattern) g v g' :
  S.sample_mixture p g = (Returned v, g') -> 0 <= v.
Proof.
  unfold S.sample_mixture. intro H. repeat bind_inv H. ret_inv H.
  apply max2_lower.
Qed.

Lemma slot_value_nonneg (p : S.time_pattern) prev g v g' :
  S.generate_consumption_value p prev g = (Returned v, g') -> 0 <= v.
Proof.
  unfold S.generate_consumption_value. intro H. bind_inv H.
  destruct a.
  - ret_inv H. apply Qle_refl.
  - eapply slot_sample_mixture_nonneg; eassumption.
Qed.

Lemma slot_modulated_nonneg p ds hour prev g v g' :
  S.modulated_value p ds hour prev g = (Returned v, g') -> 0 <= v.
Proof.
  unfold S.modulated_value. intro H. do 2 bind_inv H.
  destruct (Py.mem_Z hour a).
  - bind_inv H. destruct (Qeq_bool a1 0).
    + bind_inv H. destruct (Py.Qlt_bool a2 (7 # 10)).
      * eapply slot_value_nonneg; eassumption.
      * ret_inv H. eapply slot_value_nonneg; eassumption.
    + ret_inv H. eapply slot_value_nonneg; eassumption.
  - destruct (Py.mem_Z hour a0).
    + bind_inv H. destruct (Py.Qlt_bool a1 (8 # 10)).
      * ret_inv H. apply Qle_refl.
      * eapply slot_value_nonneg; eassumption.
    + eapply slot_value_nonneg; eassumption.
Qed.

Lemma slot_step_nonneg mp t prev g c prev' g' :
  S.slot_step mp t prev g = (Returned (c, prev'), g') -> 0 <= c.
Proof.
  unfold S.slot_step. intro H.
  destruct (S.active_slot mp t) as [[tp ds] |].
  - bind_inv H. bind_inv H. ret_inv H.
    destruct (Py.Qlt_bool 0 a).
    + repeat bind_inv E0. ret_inv E0. apply max2_lower.
    + ret_inv E0. eapply slot_modulated_nonneg; eassumption.
  - ret_inv H. apply Qle_refl.
Qed.

Lemma slot_walk_nonneg mp oid ts :
  forall prev g data final g',
    S.walk mp oid ts prev g = (Returned (data, final), g') ->
    Forall (fun r => 0 <= S.Consumption r) data.
Proof.
  induction ts as [| t ts IH]; simpl; intros prev g data final g' H.
  - ret_inv H. constructor.
  - bind_inv H. destruct a as [c prev']. bind_inv H.
    destruct a as [data' final']. ret_inv H.
    constructor.
    + simpl. apply round2_nonneg. eapply slot_step_nonneg; eassumption.
    + eapply IH; eassumption.
Qed.

Lemma slot_meter_nonneg patterns s e oid vf g data g' :
  S.generate_meter_data patterns s e oid vf g = (Returned data, g') ->
  Forall (fun r => 0 <= S.Consumption r) data.
Proof.
  unfold S.generate_meter_data. intro H. bind_inv H. bind_inv H.
  destruct a0 as [d f]. ret_inv H.
  eapply slot_walk_nonneg; eassumption.
Qed.

Lemma cluster_sample_nonneg gp tp hour dow g v g' :
  C.sample_value gp tp hour dow g = (Returned v, g') -> 0 <= v.
Proof.
  unfold C.sample_value. intro H. destruct gp as [gm |].
  - repeat bind_inv H. ret_inv H.
    apply round2_nonneg, max2_nan_lower.
  - ret_inv H. apply Qle_refl.
Qed.

Lemma cluster_value_nonneg gp tp hour dow g v g' :
  C.generate_consumption_value gp tp hour dow g = (Returned v, g') -> 0 <= v.
Proof.
  unfold C.generate_consumption_value. intro H.
  apply try_except_returned in H. destruct H as [H | (e & g1 & _ & H)].
  - eapply cluster_sample_nonneg; eassumption.
  - ret_inv H. apply Qle_refl.
Qed.

Lemma cluster_walk_nonneg cp cl ti n :
  forall st t g data g',
    C.walk cp cl ti n st t g = (Returned data, g') ->
    Forall (fun r => 0 <= C.Consumption r) data.
Proof.
  induction n as [| n IH]; simpl; intros st t g data g' H.
  - ret_inv H. constructor.
  - do 4 bind_inv H. ret_inv H. constructor.
    + simpl. destruct (a =? 0)%Z.
      * ret_inv E0. apply Qle_refl.
      * eapply cluster_value_nonneg; eassumption.
    + eapply IH; eassumption.
Qed.

Lemma cluster_one_meter_nonneg pd id np ti sd g rows g' :
  C.one_meter pd id np ti sd g = (Returned rows, g') ->
  Forall (fun r => 0 <= C.Consumption (C.record r)) rows.
Proof.
  unfold C.one_meter. intro H. do 4 bind_inv H. ret_inv H.
  unfold C.generate_meter_data in E2. bind_inv E2.
  apply cluster_walk_nonneg in E2.
  apply Forall_map. simpl. exact E2.
Qed.

Lemma cluster_meters_nonneg pd np ti sd n :
  forall id g rows g',
    C.meters pd np ti sd n id g = (Returned rows, g') ->
    Forall (fun r => 0 <= C.Consumption (C.record r)) rows.
Proof.
  induction n as [| n IH]; simpl; intros id g rows g' H.
  - ret_inv H. constructor.
  - do 2 bind_inv H. ret_inv H. apply Forall_app. split.
    + apply try_except_returned in E.
      destruct E as [E | (e & gx & _ & E)].
      * eapply cluster_one_meter_nonneg; eassumption.
      * ret_inv E. constructor.
    + eapply IH; eassumption.
Qed.

(** ** [sort_values] sorts *)

Lemma result_returned {A} (m : M A) g a :
  result m g = Returned a -> m g = (Returned a, snd (m g)).
Proof.
  unfold result. destruct (m g) as [o g']. simpl. intros ->. reflexivity.
Qed.

Lemma key_leb_total a b : S.key_leb a b = false -> S.key_leb b a = true.
Proof. unfold S.key_leb. lia. Qed.

Lemma key_le_trans a b c : key_le a b -> key_le b c -> key_le a c.
Proof. unfold key_le, S.key_leb. lia. Qed.

Lemma insert_permutation x l : Permutation (S.insert x l) (x :: l).
Proof.
  induction l as [| h t IH]; simpl.
  - apply Permutation_refl.
  - destruct (S.key_leb x h).
    + apply Permutation_refl.
    + eapply perm_trans; [apply perm_skip, IH | apply perm_swap].
Qed.

Lemma sort_values_permutation l : Permutation (S.sort_values l) l.
Proof.
  induction l as [| x l IH]; simpl.
  - constructor.
  - eapply perm_trans; [apply insert_permutation | apply perm_skip, IH].
Qed.

Lemma insert_HdRel h x t :
  key_le h x -> HdRel key_le h t -> HdRel key_le h (S.insert x t).
Proof.
  intros Hx Ht. destruct t as [| h' t']; simpl.
  - constructor. exact Hx.
  - destruct (S.key_leb x h'); constructor.
    + exact Hx.
    + inversion Ht; assumption.
Qed.

Lemma insert_sorted x l : Sorted key_le l -> Sorted key_le (S.insert x l).
Proof.
  induction 1 as [| h t St IH Hd]; simpl.
  - repeat constructor.
  - destruct (S.key_leb x h) eqn:E.
    + constructor; [constructor; assumption | constructor; exact E].
    + constructor; [exact IH |].
      apply insert_HdRel; [apply key_leb_total, E | exact Hd].
Qed.

Lemma sort_values_sorted l : Sorted key_le (S.sort_values l).
Proof.
  induction l as [| x l IH]; simpl.
  - constructor.
  - apply insert_sorted, IH.
Qed.

Lemma sort_values_strongly_sorted l : StronglySorted key_le (S.sort_values l).
Proof.
  apply Sorted_StronglySorted.
  - intros a b c. apply key_le_trans.
  - apply sort_values_sorted.
Qed.

(** Sorting a sorted frame changes nothing. *)
Lemma sort_values_fixpoint l : Sorted key_le l -> S.sort_values l = l.
Proof.
  induction 1 as [| h t St IH Hd]; simpl.
  - reflexivity.
  - rewrite IH. destruct Hd as [| h' t' Hle]; simpl.
    + reflexivity.
    + unfold key_le in Hle. rewrite Hle. reflexivity.
Qed.

(** ** What [all_data] holds *)

Lemma collect_spec patterns s e base vf task_rng completion :
  Forall
    (fun meter_data =>
       exists i, In i completion /\
         result (S.generate_meter_data patterns s e (base + Z.of_nat i) vf)
                (task_rng i) = Returned meter_data)
    (S.collect patterns s e base vf task_rng completion).
Proof.
  unfold S.collect. induction completion as [| i rest IH]; simpl.
  - constructor.
  - apply Forall_app. split.
    + destruct (fst _) as [md | ex] eqn:E; constructor; [| constructor].
      exists i. split; [left; reflexivity | exact E].
    + eapply Forall_impl; [| exact IH].
      intros md (j & Hj & Hr). exists j. split; [right; exact Hj | exact Hr].
Qed.

Lemma synthetic_data_spec patterns s e base vf task_rng completion final :
  S.generate_synthetic_data patterns s e base vf task_rng completion
  = Returned final ->
  final = S.sort_values
            (List.concat (S.collect patterns s e base vf task_rng completion)).
Proof.
  unfold S.generate_synthetic_data.
  destruct (S.collect _ _ _ _ _ _ _) as [| d ds]; [discriminate|].
  destruct (List.concat (d :: ds)); [discriminate|].
  intro H. inversion H. reflexivity.
Qed.

(** ** C1 *)

(** C1. Every reading that a run emits has a consumption greater than or
    equal to 0, whatever the pattern file and whatever the generator
    returns: the readings of one meter and the merged frame of the
    slot-grouped generator, and the rows of the cluster generator. *)
Theorem consumption_never_negative :
  (forall patterns s e oid vf g data,
      result (S.generate_meter_data patterns s e oid vf) g = Returned data ->
      Forall (fun r => 0 <= S.Consumption r) data)
  /\ (forall patterns s e base vf task_rng completion final,
         S.generate_synthetic_data patterns s e base vf task_rng completion
         = Returned final ->
         Forall (fun r => 0 <= S.Consumption r) final)
  /\ (forall pd nm np ti sd g rows,
         result (C.generate_synthetic_data pd nm np ti sd) g = Returned rows ->
         Forall (fun r => 0 <= C.Consumption (C.record r)) rows).
Proof.
  split; [| split].
  - intros patterns s e oid vf g data H. apply result_returned in H.
    eapply slot_meter_nonneg; exact H.
  - intros patterns s e base vf task_rng completion final H.
    apply synthetic_data_spec in H. subst final.
    eapply Permutation_Forall.
    + apply Permutation_sym, sort_values_permutation.
    + apply Forall_concat.
      eapply Forall_impl; [| apply collect_spec].
      intros md (i & _ & Hr). apply result_returned in Hr.
      eapply slot_meter_nonneg; exact Hr.
  - intros pd nm np ti sd g rows H. apply result_returned in H.
    unfold C.generate_synthetic_data in H.
    eapply cluster_meters_nonneg; exact H.
Qed.

Lemma consumption_never_negative_witness :
  (exists final,
      S.generate_synthetic_data ex_patterns 0 1800 1 (1 # 10)
        (fun _ => ex_rng) [1%nat; 0%nat] = Returned final
      /\ Forall (fun r => 0 <= S.Consumption r) final)
  /\ (exists rows,
         result (C.generate_synthetic_data ex_patterns_data 2 2 15 0)
                ex_rng_high = Returned rows
         /\ Forall (fun r => 0 <= C.Consumption (C.record r)) rows).
Proof.
  split.
  - eexists. split.
    + vm_compute. reflexivity.
    + apply (proj1 (proj2 consumption_never_negative)
               ex_patterns 0%Z 1800%Z 1%Z (1 # 10) (fun _ => ex_rng)
               [1%nat; 0%nat]).
      vm_compute. reflexivity.
  - eexists. split.
    + vm_compute. reflexivity.
    + apply (proj2 (proj2 consumption_never_negative)
               ex_patterns_data 2%Z 2%Z 15%Z 0%Z ex_rng_high).
      vm_compute. reflexivity.
Defined.

(** ** C2 *)

Lemma slot_walk_timestamps mp oid ts :
  forall prev g data final g',
    S.walk mp oid ts prev g = (Returned (data, final), g') ->
    map S.TimeStamp data = ts /\ Forall (fun r => S.OBJECTID r = oid) data.
Proof.
  induction ts as [| t ts IH]; simpl; intros prev g data final g' H.
  - ret_inv H. split; [reflexivity | constructor].
  - bind_inv H. destruct a as [c prev']. bind_inv H.
    destruct a as [data' final']. ret_inv H.
    apply IH in E0. destruct E0 as [Et Eo]. simpl. split.
    + f_equal. exact Et.
    + constructor; [reflexivity | exact Eo].
Qed.

Lemma slot_meter_timestamps patterns s e oid vf g data :
  result (S.generate_meter_data patterns s e oid vf) g = Returned data ->
  map S.TimeStamp data = Time.date_range s e
  /\ Forall (fun r => S.OBJECTID r = oid) data.
Proof.
  intro H. apply result_returned in H.
  unfold S.generate_meter_data in H. bind_inv H. bind_inv H.
  destruct a0 as [d f]. ret_inv H.
  eapply slot_walk_timestamps; eassumption.
Qed.

Lemma date_range_length s e :
  (s <= e)%Z ->
  Z.of_nat (List.length (Time.date_range s e)) = ((e - s) / 900 + 1)%Z.
Proof.
  intro H. unfold Time.date_range.
  destruct (e <? s)%Z eqn:E; [lia|].
  rewrite length_map, length_seq.
  assert (0 <= (e - s) / 900)%Z by (apply Z.div_pos; lia).
  lia.
Qed.

Lemma cluster_walk_timestamps cp cl ti n :
  forall st t g data g',
    C.walk cp cl ti n st t g = (Returned data, g') ->
    map C.TimeStamp data
    = map (fun i => (t + 60 * ti * Z.of_nat i)%Z) (seq 0 n).
Proof.
  induction n as [| n IH]; intros st t g data g' H.
  - simpl in H. ret_inv H. reflexivity.
  - cbn [C.walk] in H. do 4 bind_inv H. ret_inv H.
    apply IH in E2. cbn [map seq C.TimeStamp]. f_equal.
    + cbn [Z.of_nat]. rewrite Z.mul_0_r, Z.add_0_r. reflexivity.
    + rewrite E2, <- seq_shift, map_map. apply map_ext. intro i.
      rewrite Nat2Z.inj_succ. unfold Z.succ. ring.
Qed.

(** C2. One meter of the slot-grouped generator gets one reading per
    timestamp of the 15-minute range from the start date to the end date,
    in that order, which is [(end - start) / 15 min + 1] readings; one
    meter of the cluster generator gets exactly [num_periods] readings,
    [time_interval] minutes apart from the start date on. *)
Theorem reading_count_is_period_count :
  (forall patterns s e oid vf g data,
      result (S.generate_meter_data patterns s e oid vf) g = Returned data ->
      map S.TimeStamp data = Time.date_range s e
      /\ List.length data = List.length (Time.date_range s e)
      /\ ((s <= e)%Z ->
          Z.of_nat (List.length data) = ((e - s) / 900 + 1)%Z))
  /\ (forall patterns cluster sd np ti g data,
         (0 <= np)%Z ->
         result (C.generate_meter_data patterns cluster sd np ti) g
         = Returned data ->
         Z.of_nat (List.length data) = np
         /\ map C.TimeStamp data
            = map (fun i => (sd + 60 * ti * Z.of_nat i)%Z)
                  (seq 0 (Z.to_nat np))).
Proof.
  split.
  - intros patterns s e oid vf g data H.
    apply slot_meter_timestamps in H. destruct H as [Ht _].
    assert (L : List.length data = List.length (Time.date_range s e))
      by (rewrite <- Ht; symmetry; apply length_map).
    repeat split; auto.
    intro Hse. rewrite L. apply date_range_length, Hse.
  - intros patterns cluster sd np ti g data Hnp H.
    apply result_returned in H. unfold C.generate_meter_data in H.
    bind_inv H. apply cluster_walk_timestamps in H.
    split; [| exact H].
    rewrite <- (length_map C.TimeStamp), H, length_map, length_seq. lia.
Qed.

Lemma reading_count_is_period_count_witness :
  (exists data,
      result (S.generate_meter_data ex_patterns 0 1800 1 (1 # 10)) ex_rng
      = Returned data
      /\ Z.of_nat (List.length data) = 3%Z)
  /\ (exists data,
         result (C.generate_meter_data [("0"%string, ex_cluster_pattern)]
                   "0" 0 4 15) ex_rng_high = Returned data
         /\ Z.of_nat (List.length data) = 4%Z).
Proof.
  split.
  - eexists. split.
    + vm_compute. reflexivity.
    + apply (proj1 reading_count_is_period_count
               ex_patterns 0%Z 1800%Z 1%Z (1 # 10) ex_rng);
        [vm_compute; reflexivity | lia].
  - eexists. split.
    + vm_compute. reflexivity.
    + apply (proj2 reading_count_is_period_count
               [("0"%string, ex_cluster_pattern)] "0"%string 0%Z 4%Z 15%Z
               ex_rng_high); [lia | vm_compute; reflexivity].
Defined.

(** ** C4 *)

Lemma StronglySorted_app {A} (R : A -> A -> Prop) l1 l2 :
  StronglySorted R l1 -> StronglySorted R l2 ->
  (forall a b, In a l1 -> In b l2 -> R a b) ->
  StronglySorted R (l1 ++ l2).
Proof.
  intros S1 S2 H. induction S1 as [| a l1 S1 IH Ha]; simpl.
  - exact S2.
  - constructor.
    + apply IH. intros x y Hx Hy. apply H; [right; exact Hx | exact Hy].
    + apply Forall_app. split; [exact Ha |].
      apply Forall_forall. intros y Hy. apply H; [left; reflexivity | exact Hy].
Qed.

Lemma cluster_walk_sorted cp cl ti n :
  (0 <= ti)%Z ->
  forall st t g data g',
    C.walk cp cl ti n st t g = (Returned data, g') ->
    Forall (fun r => (t <= C.TimeStamp r)%Z) data
    /\ StronglySorted (fun a b => (C.TimeStamp a <= C.TimeStamp b)%Z) data.
Proof.
  intro Hti. induction n as [| n IH]; intros st t g data g' H.
  - cbn [C.walk] in H. ret_inv H. split; constructor.
  - cbn [C.walk] in H. do 4 bind_inv H. ret_inv H.
    apply IH in E2. destruct E2 as [Hge Hs].
    assert (Hge' : Forall (fun r => (t <= C.TimeStamp r)%Z) a2).
    { eapply Forall_impl; [| exact Hge]. cbv beta. intros r Hr. lia. }
    split.
    + constructor; [simpl; lia | exact Hge'].
    + constructor; [exact Hs | exact Hge'].
Qed.

Lemma cluster_one_meter_sorted pd id np ti sd g rows g' :
  (0 <= ti)%Z ->
  C.one_meter pd id np ti sd g = (Returned rows, g') ->
  Forall (fun r => C.MeterID r = id) rows
  /\ StronglySorted meter_major_le rows.
Proof.
  intros Hti H. unfold C.one_meter in H. do 4 bind_inv H. ret_inv H.
  unfold C.generate_meter_data in E2. bind_inv E2.
  apply (cluster_walk_sorted _ _ _ _ Hti) in E2. destruct E2 as [_ Hs].
  split.
  - apply Forall_map. apply Forall_forall. reflexivity.
  - induction Hs as [| r l Hs IH Hr]; simpl; constructor.
    + exact IH.
    + apply Forall_map. eapply Forall_impl; [| exact Hr].
      intros r' Hle. right. simpl. split; [reflexivity | exact Hle].
Qed.

Lemma cluster_meters_sorted pd np ti sd n :
  (0 <= ti)%Z ->
  forall id g rows g',
    C.meters pd np ti sd n id g = (Returned rows, g') ->
    Forall (fun r => (id <= C.MeterID r)%Z) rows
    /\ StronglySorted meter_major_le rows.
Proof.
  intro Hti. induction n as [| n IH]; intros id g rows g' H.
  - cbn [C.meters] in H. ret_inv H. split; constructor.
  - cbn [C.meters] in H. do 2 bind_inv H. ret_inv H.
    apply IH in E0. destruct E0 as [Hge Hs].
    assert (Hone : Forall (fun r => C.MeterID r = id) a
                   /\ StronglySorted meter_major_le a).
    { apply try_except_returned in E.
      destruct E as [E | (e & gx & _ & E)].
      - eapply cluster_one_meter_sorted; eassumption.
      - ret_inv E. split; constructor. }
    destruct Hone as [Hid Hs1]. split.
    + apply Forall_app. split.
      * eapply Forall_impl; [| exact Hid]. cbv beta. intros r Hr. lia.
      * eapply Forall_impl; [| exact Hge]. cbv beta. intros r Hr. lia.
    + apply StronglySorted_app; [exact Hs1 | exact Hs |].
      intros x y Hx Hy. left.
      rewrite Forall_forall in Hid, Hge.
      specialize (Hid x Hx). specialize (Hge y Hy). lia.
Qed.

(** C4, as stated, fails on the cluster generator: the frame it writes for
    two meters and two periods is not sorted by [(TimeStamp, MeterID)]. *)
Lemma cluster_frame_not_sorted :
  exists rows,
    result (C.generate_synthetic_data ex_patterns_data 2 2 15 0) ex_rng_high
    = Returned rows
    /\ ~ Sorted row_key_le rows.
Proof.
  eexists. split.
  - vm_compute. reflexivity.
  - intro HS.
    inversion HS as [| r1 l1 HS1 HD1]; subst.
    inversion HS1 as [| r2 l2 HS2 HD2]; subst.
    inversion HD2 as [| r3 l3 Hle]; subst.
    vm_compute in Hle. discriminate.
Qed.

(** C4, amended. The frame that the slot-grouped generator hands to the
    writer is a rearrangement of the readings of the meters that
    succeeded, sorted by [(TimeStamp, OBJECTID)] and left unchanged by
    sorting it again, whatever the order in which the meters complete.
    The cluster generator does not sort: it writes the rows in generation
    order, which for a non-negative interval is sorted by
    [(MeterID, TimeStamp)]. *)
Theorem merged_frame_order :
  (forall patterns s e base vf task_rng completion final,
      S.generate_synthetic_data patterns s e base vf task_rng completion
      = Returned final ->
      StronglySorted key_le final
      /\ S.sort_values final = final
      /\ Permutation final
           (List.concat
              (S.collect patterns s e base vf task_rng completion)))
  /\ (forall pd nm np ti sd g rows,
         (0 <= ti)%Z ->
         result (C.generate_synthetic_data pd nm np ti sd) g = Returned rows ->
         StronglySorted meter_major_le rows).
Proof.
  split.
  - intros patterns s e base vf task_rng completion final H.
    apply synthetic_data_spec in H. subst final. split; [| split].
    + apply sort_values_strongly_sorted.
    + apply sort_values_fixpoint, sort_values_sorted.
    + apply sort_values_permutation.
  - intros pd nm np ti sd g rows Hti H. apply result_returned in H.
    unfold C.generate_synthetic_data in H.
    eapply cluster_meters_sorted; eassumption.
Qed.

Lemma merged_frame_order_witness :
  (exists final,
      S.generate_synthetic_data ex_patterns 0 1800 1 (1 # 10)
        (fun _ => ex_rng) [1%nat; 0%nat] = Returned final
      /\ StronglySorted key_le final /\ S.sort_values final = final)
  /\ (exists rows,
         result (C.generate_synthetic_data ex_patterns_data 2 2 15 0)
                ex_rng_high = Returned rows
         /\ StronglySorted meter_major_le rows).
Proof.
  split.
  - eexists. split.
    + vm_compute. reflexivity.
    + match goal with
      | |- StronglySorted _ ?l /\ _ =>
          assert (E : S.generate_synthetic_data ex_patterns 0 1800 1 (1 # 10)
                        (fun _ => ex_rng) [1%nat; 0%nat] = Returned l)
            by (vm_compute; reflexivity)
      end.
      destruct (proj1 merged_frame_order
                  ex_patterns 0%Z 1800%Z 1%Z (1 # 10) (fun _ => ex_rng)
                  [1%nat; 0%nat] _ E) as (Hs & Hf & _).
      split; [exact Hs | exact Hf].
  - eexists. split.
    + vm_compute. reflexivity.
    + apply (proj2 merged_frame_order
               ex_patterns_data 2%Z 2%Z 15%Z 0%Z ex_rng_high);
        [lia | vm_compute; reflexivity].
Defined.

(** ** Mixture weights that do not sum to 1 *)

Lemma probabilities_ok_false (ws : list Q) :
  off_unit_sum ws -> Np.probabilities_ok ws = false.
Proof.
  intro H. unfold Np.probabilities_ok.
  destruct (Qle_bool (Qabs (Np.sum ws - 1)) Np.atol) eqn:E.
  - apply Qle_bool_iff in E. contradiction.
  - apply andb_false_r.
Qed.

(** The categorical draw refuses weights that do not sum to 1, before any
    deviate is drawn. *)
Lemma choice_index_off_unit_sum n ws g :
  off_unit_sum ws -> Np.choice_index n ws g = (Raised ValueError, g).
Proof.
  intro H. unfold Np.choice_index.
  destruct (n =? 0)%nat; [reflexivity |].
  destruct (negb (List.length ws =? n)%nat); [reflexivity |].
  rewrite (probabilities_ok_false ws H). reflexivity.
Qed.

Lemma slot_mixture_off_unit_sum pattern ms ws g :
  S.gmm_means pattern = Some ms ->
  S.gmm_weights pattern = Some ws ->
  off_unit_sum ws ->
  S.sample_mixture pattern g = (Raised ValueError, g).
Proof.
  intros Hm Hw Hoff.
  unfold S.sample_mixture. rewrite Hm, Hw. unfold bind at 1. simpl.
  unfold bind at 1. simpl. unfold bind at 1.
  rewrite (choice_index_off_unit_sum _ ws g Hoff). reflexivity.
Qed.

(** With weights 0.5 and 0.3 the slot-grouped sampler, having left the
    zero state, raises [ValueError]. *)
Lemma light_weights_raise :
  off_unit_sum [1 # 2; 3 # 10]
  /\ result (S.generate_consumption_value ex_slot_light_weights 0) ex_rng
     = Raised ValueError.
Proof.
  split.
  - unfold off_unit_sum. vm_compute. intro H. apply H. reflexivity.
  - vm_compute. reflexivity.
Qed.

(** When the mixture weights of the active slot do not sum to 1 within
    the tolerance of [np.random.choice], nothing renormalises them: the
    categorical draw raises [ValueError].  The mixture sampling
    of the slot-grouped generator fails with that error, so its sampler
    either returns the 0 of the zero state or raises; the sampler of the
    cluster generator catches the error and returns 0, no deviate
    drawn. *)
Theorem weights_off_unit_sum :
  (forall pattern ms ws g,
      S.gmm_means pattern = Some ms ->
      S.gmm_weights pattern = Some ws ->
      off_unit_sum ws ->
      S.sample_mixture pattern g = (Raised ValueError, g))
  /\ (forall pattern ms ws previous_value g,
         S.gmm_means pattern = Some ms ->
         S.gmm_weights pattern = Some ws ->
         off_unit_sum ws ->
         result (S.generate_consumption_value pattern previous_value) g
         = Returned 0
         \/ exists e,
             result (S.generate_consumption_value pattern previous_value) g
             = Raised e)
  /\ (forall gm ms ws temporal hour day_of_week g,
         C.means gm = Some ms ->
         C.weights gm = Some ws ->
         off_unit_sum ws ->
         C.generate_consumption_value (Some gm) temporal hour day_of_week g
         = (Returned 0, g)).
Proof.
  pose proof slot_mixture_off_unit_sum as Hmix.
  split; [exact Hmix | split].
  - intros pattern ms ws previous_value g Hm Hw Hoff.
    unfold result, S.generate_consumption_value, bind.
    destruct (S.should_be_zero pattern previous_value g) as [[[|] | e] g1].
    + left. reflexivity.
    + right. exists ValueError.
      rewrite (Hmix pattern ms ws g1 Hm Hw Hoff). reflexivity.
    + right. exists e. reflexivity.
  - intros gm ms ws temporal hour day_of_week g Hm Hw Hoff.
    unfold C.generate_consumption_value, try_except, C.sample_value.
    rewrite Hm, Hw. unfold bind at 1. simpl.
    unfold bind at 1. simpl. unfold bind at 1.
    rewrite (choice_index_off_unit_sum _ ws g Hoff). reflexivity.
Qed.

Lemma weights_off_unit_sum_witness :
  S.sample_mixture ex_slot_light_weights ex_rng = (Raised ValueError, ex_rng)
  /\ C.generate_consumption_value (Some ex_gmm_light_weights)
       C.no_temporal_patterns 0 0 ex_rng = (Returned 0, ex_rng).
Proof.
  assert (Hoff : off_unit_sum [1 # 2; 3 # 10]).
  { unfold off_unit_sum. vm_compute. intro H. apply H. reflexivity. }
  split.
  - apply (proj1 weights_off_unit_sum ex_slot_light_weights
             [10; 20] [1 # 2; 3 # 10] ex_rng);
      [reflexivity | reflexivity | exact Hoff].
  - apply (proj2 (proj2 weights_off_unit_sum) ex_gmm_light_weights
             [10; 20] [1 # 2; 3 # 10] C.no_temporal_patterns 0%Z 0%Z ex_rng);
      [reflexivity | reflexivity | exact Hoff].
Defined.

(** ** The per-meter copy of a slot *)

Lemma standard_normal_spec g :
  Np.standard_normal g = (Returned (coming_normal g 0), skip_normals 1 g).
Proof. reflexivity. Qed.

Lemma coming_normal_skip k g i :
  coming_normal (skip_normals k g) i = coming_normal g (i + k).
Proof.
  unfold coming_normal, skip_normals. simpl. f_equal. lia.
Qed.

Lemma skip_normals_skip j k g :
  skip_normals j (skip_normals k g) = skip_normals (j + k) g.
Proof.
  unfold skip_normals. simpl. f_equal. lia.
Qed.

Lemma skip_normals_0 g : skip_normals 0 g = g.
Proof. destruct g. reflexivity. Qed.

Lemma perturb_returned vf x g y g' :
  S.perturb vf x g = (Returned y, g') ->
  y = x * variation vf g 0 /\ g' = skip_normals 1 g
  /\ Py.Qlt_bool vf 0 = false.
Proof.
  unfold S.perturb, Np.normal_q. intro H. bind_inv H. ret_inv H.
  destruct (Py.Qlt_bool vf 0) eqn:Evf; [discriminate |].
  bind_inv E. ret_inv E. rewrite standard_normal_spec in E0.
  inversion E0; subst. auto.
Qed.

Lemma vary_means_returned vf ms :
  forall g ms' g',
    S.vary_means vf ms g = (Returned ms', g') ->
    List.length ms' = List.length ms
    /\ g' = skip_normals (List.length ms) g
    /\ forall i m, nth_error ms i = Some m ->
         nth_error ms' i = Some (m * variation vf g i).
Proof.
  induction ms as [| m0 t IH]; intros g ms' g' H.
  - cbn [S.vary_means] in H. ret_inv H.
    split; [reflexivity | split].
    + symmetry. apply skip_normals_0.
    + intros [| i] m; discriminate.
  - cbn [S.vary_means] in H. do 2 bind_inv H. ret_inv H.
    apply perturb_returned in E. destruct E as (-> & -> & _).
    apply IH in E0. destruct E0 as (Hl & -> & Hn).
    split; [simpl; f_equal; exact Hl | split].
    + rewrite skip_normals_skip. f_equal. simpl. lia.
    + intros [| i] m Hm; simpl in *.
      * inversion Hm; subst. reflexivity.
      * rewrite (Hn i m Hm). unfold variation.
        rewrite coming_normal_skip.
        replace (i + 1)%nat with (S i) by lia. reflexivity.
Qed.

(** What a successful copy of a slot holds, field by field. *)
Lemma vary_pattern_returned vf tp g tp' g' :
  S.vary_pattern vf tp g = (Returned tp', g') ->
  exists ms ms' ws cs pc cv tr zp bs mean std lo hi,
    S.gmm_means tp = Some ms /\ S.gmm_weights tp = Some ws
    /\ S.gmm_covariances tp = Some cs /\ S.percentiles tp = Some pc
    /\ S.common_values tp = Some cv /\ S.transitions tp = Some tr
    /\ S.zero_probability tp = Some zp /\ S.basic_stats tp = Some bs
    /\ S.stat_mean bs = Some mean /\ S.stat_std bs = Some std
    /\ S.stat_min bs = Some lo /\ S.stat_max bs = Some hi
    /\ List.length ms' = List.length ms
    /\ (forall i m, nth_error ms i = Some m ->
          nth_error ms' i = Some (m * variation vf g i))
    /\ Py.Qlt_bool vf 0 = false
    /\ g' = skip_normals (2 + List.length ms) g
    /\ tp' =
       {| S.gmm_means := Some ms';
          S.gmm_weights := Some ws;
          S.gmm_covariances := Some cs;
          S.percentiles := Some pc;
          S.common_values :=
            Some (cv * variation vf g (List.length ms));
          S.transitions := Some tr;
          S.zero_probability := Some zp;
          S.basic_stats :=
            Some {| S.stat_mean :=
                      Some (mean * variation vf g (S (List.length ms)));
                    S.stat_std := Some std;
                    S.stat_min := Some lo;
                    S.stat_max := Some hi |} |}.
Proof.
  unfold S.vary_pattern. intro H. repeat bind_inv H. ret_inv H.
  repeat match goal with
         | E : subscript _ _ = (Returned _, _) |- _ =>
             apply subscript_returned in E; destruct E as [? ?]; subst
         end.
  apply vary_means_returned in E0. destruct E0 as (Hl & -> & Hn).
  apply perturb_returned in E5. destruct E5 as (-> & -> & Hvf).
  apply perturb_returned in E10. destruct E10 as (-> & -> & _).
  do 13 eexists. repeat (split; [eassumption |]). split.
  - rewrite !skip_normals_skip. reflexivity.
  - unfold variation. rewrite !coming_normal_skip. reflexivity.
Qed.

Lemma result_of_pair {A} (m : M A) g a g' :
  m g = (Returned a, g') -> result m g = Returned a.
Proof. unfold result. intros ->. reflexivity. Qed.

Lemma Qlt_bool_0_nonneg (x : Q) : Py.Qlt_bool x 0 = false <-> 0 <= x.
Proof. apply Qlt_bool_false. Qed.

(** The copy of a slot leaves the weights, the covariances, the
    percentiles, the transitions, the zero probability and the standard
    deviation, minimum and maximum of the basic statistics as they are in
    the shared pattern. *)
Theorem slot_copy_frame vf tp g tp' :
  result (S.vary_pattern vf tp) g = Returned tp' ->
  S.gmm_weights tp' = S.gmm_weights tp
  /\ S.gmm_covariances tp' = S.gmm_covariances tp
  /\ S.percentiles tp' = S.percentiles tp
  /\ S.transitions tp' = S.transitions tp
  /\ S.zero_probability tp' = S.zero_probability tp
  /\ exists bs bs',
       S.basic_stats tp = Some bs /\ S.basic_stats tp' = Some bs'
       /\ S.stat_std bs' = S.stat_std bs
       /\ S.stat_min bs' = S.stat_min bs
       /\ S.stat_max bs' = S.stat_max bs.
Proof.
  intro H. apply result_returned in H. apply vary_pattern_returned in H.
  destruct H as (ms & ms' & ws & cs & pc & cv & tr & zp & bs & mean & std
                 & lo & hi & Hms & Hws & Hcs & Hpc & Hcv & Htr & Hzp & Hbs
                 & Hmean & Hstd & Hlo & Hhi & _ & _ & _ & _ & ->).
  simpl. repeat (split; [congruence |]).
  exists bs. eexists. split; [exact Hbs | split; [reflexivity |]].
  simpl. repeat split; congruence.
Qed.

Lemma slot_copy_frame_witness :
  exists tp',
    result (S.vary_pattern (1 # 10) ex_slot) ex_rng = Returned tp'
    /\ S.gmm_weights tp' = S.gmm_weights ex_slot
    /\ S.transitions tp' = S.transitions ex_slot.
Proof.
  eexists. split.
  - vm_compute. reflexivity.
  - match goal with
    | |- S.gmm_weights ?t = _ /\ _ =>
        assert (E : result (S.vary_pattern (1 # 10) ex_slot) ex_rng
                    = Returned t) by (vm_compute; reflexivity)
    end.
    destruct (slot_copy_frame (1 # 10) ex_slot ex_rng _ E)
      as (Hw & _ & _ & Ht & _).
    split; [exact Hw | exact Ht].
Defined.

(** The copy of a slot multiplies each mixture mean, then the common
    value, then the mean of the basic statistics by a factor
    [1 + variation_factor * z] of its own, [z] running through the normal
    deviates that the generator returns, in that order; the variation
    factor is then not negative. *)
Theorem slot_copy_perturbation vf tp g tp' :
  result (S.vary_pattern vf tp) g = Returned tp' ->
  0 <= vf
  /\ exists ms ms' cv bs bs' mean,
       S.gmm_means tp = Some ms /\ S.gmm_means tp' = Some ms'
       /\ List.length ms' = List.length ms
       /\ (forall i m, nth_error ms i = Some m ->
             nth_error ms' i = Some (m * variation vf g i))
       /\ S.common_values tp = Some cv
       /\ S.common_values tp'
          = Some (cv * variation vf g (List.length ms))
       /\ S.basic_stats tp = Some bs /\ S.basic_stats tp' = Some bs'
       /\ S.stat_mean bs = Some mean
       /\ S.stat_mean bs'
          = Some (mean * variation vf g (S (List.length ms))).
Proof.
  intro H. apply result_returned in H. apply vary_pattern_returned in H.
  destruct H as (ms & ms' & ws & cs & pc & cv & tr & zp & bs & mean & std
                 & lo & hi & Hms & Hws & Hcs & Hpc & Hcv & Htr & Hzp & Hbs
                 & Hmean & Hstd & Hlo & Hhi & Hl & Hn & Hvf & _ & ->).
  split; [apply Qlt_bool_0_nonneg, Hvf |].
  exists ms, ms', cv, bs. eexists. exists mean. simpl.
  repeat (split; [first [assumption | reflexivity] |]). reflexivity.
Qed.

Lemma slot_copy_perturbation_witness :
  exists tp',
    result (S.vary_pattern (1 # 10) ex_slot) ex_rng = Returned tp'
    /\ 0 <= 1 # 10.
Proof.
  eexists. split.
  - vm_compute. reflexivity.
  - refine (proj1 (slot_copy_perturbation (1 # 10) ex_slot ex_rng _ _)).
    vm_compute. reflexivity.
Defined.

(** ** Variation factor 0, and what a meter needs of the pattern file *)

Lemma variation_zero vf g i : vf == 0 -> variation vf g i == 1.
Proof.
  intro H. unfold variation. rewrite H. ring.
Qed.

Lemma scaled_by_one (x f : Q) : f == 1 -> x * f == x.
Proof. intro H. rewrite H. ring. Qed.

Lemma pointwise_Qeq (f : nat -> Q -> Q) :
  forall ms ms',
    List.length ms' = List.length ms ->
    (forall i m, nth_error ms i = Some m -> nth_error ms' i = Some (f i m)) ->
    (forall i m, f i m == m) ->
    Forall2 Qeq ms' ms.
Proof.
  intros ms. revert f. induction ms as [| m t IH]; intros f ms' Hl Hn Hf.
  - destruct ms'; [constructor | discriminate].
  - destruct ms' as [| m' t']; [discriminate |].
    constructor.
    + specialize (Hn 0%nat m eq_refl). simpl in Hn.
      inversion Hn; subst. apply Hf.
    + apply (IH (fun i => f (S i))).
      * simpl in Hl. lia.
      * intros i x Hx. exact (Hn (S i) x Hx).
      * intros i x. apply Hf.
Qed.

(** With a variation factor of 0 the copy of a slot has the numbers of the
    shared slot: every mean, the common value and the mean of the basic
    statistics are equal, as rationals, to the ones copied. *)
Theorem zero_variation_copy vf tp g tp' :
  vf == 0 ->
  result (S.vary_pattern vf tp) g = Returned tp' ->
  exists ms ms' cv cv' bs bs' mean mean',
    S.gmm_means tp = Some ms /\ S.gmm_means tp' = Some ms'
    /\ Forall2 Qeq ms' ms
    /\ S.common_values tp = Some cv /\ S.common_values tp' = Some cv'
    /\ cv' == cv
    /\ S.basic_stats tp = Some bs /\ S.basic_stats tp' = Some bs'
    /\ S.stat_mean bs = Some mean /\ S.stat_mean bs' = Some mean'
    /\ mean' == mean.
Proof.
  intros Hvf H. apply result_returned in H.
  apply vary_pattern_returned in H.
  destruct H as (ms & ms' & ws & cs & pc & cv & tr & zp & bs & mean & std
                 & lo & hi & Hms & _ & _ & _ & Hcv & _ & _ & Hbs
                 & Hmean & _ & _ & _ & Hl & Hn & _ & _ & ->).
  cbn [S.gmm_means S.common_values S.basic_stats].
  assert (Hms' : Some ms' = Some ms') by reflexivity.
  pose (bs' := {| S.stat_mean :=
                    Some (mean * variation vf g (S (List.length ms)));
                  S.stat_std := Some std; S.stat_min := Some lo;
                  S.stat_max := Some hi |}).
  assert (Hcv' : Some (cv * variation vf g (List.length ms))
                 = Some (cv * variation vf g (List.length ms)))
    by reflexivity.
  assert (Hbs' : Some bs' = Some bs') by reflexivity.
  assert (Hmean' : S.stat_mean bs'
                   = Some (mean * variation vf g (S (List.length ms))))
    by reflexivity.
  fold bs'.
  exists ms, ms', cv. eexists. exists bs, bs', mean. eexists.
  repeat (split; [eassumption |]).
  split; [| split; [exact Hcv | split; [exact Hcv' | split]]].
  - apply (pointwise_Qeq (fun i m => m * variation vf g i)); auto.
    intros i m. apply scaled_by_one, variation_zero, Hvf.
  - apply scaled_by_one, variation_zero, Hvf.
  - repeat (split; [eassumption |]).
    apply scaled_by_one, variation_zero, Hvf.
Qed.

Lemma zero_variation_copy_witness :
  exists tp',
    result (S.vary_pattern 0 ex_slot) ex_rng = Returned tp'
    /\ exists ms', S.gmm_means tp' = Some ms' /\ Forall2 Qeq ms' [10].
Proof.
  eexists. split.
  - vm_compute. reflexivity.
  - match goal with
    | |- exists ms', S.gmm_means ?t = _ /\ _ =>
        assert (E : result (S.vary_pattern 0 ex_slot) ex_rng = Returned t)
          by (vm_compute; reflexivity)
    end.
    destruct (zero_variation_copy 0 ex_slot ex_rng _ (Qeq_refl 0) E)
      as (ms & ms' & cv & cv' & bs & bs' & mean & mean' & Hms & Hms' & HF
          & _).
    exists ms'. split; [exact Hms' |].
    simpl in Hms. inversion Hms; subst. exact HF.
Defined.

(** *** Every slot of the file is copied *)

Lemma vary_slots_returned vf sl :
  forall g sl' g',
    S.vary_slots vf sl g = (Returned sl', g') ->
    forall time tp, In (time, tp) sl ->
      exists g1 tp' g2, S.vary_pattern vf tp g1 = (Returned tp', g2).
Proof.
  induction sl as [| [time0 tp0] t IH]; intros g sl' g' H time tp Hin.
  - destruct Hin.
  - cbn [S.vary_slots] in H. do 2 bind_inv H. ret_inv H.
    destruct Hin as [Heq | Hin].
    + inversion Heq; subst. eauto.
    + eapply IH; eassumption.
Qed.

Lemma vary_patterns_returned vf patterns :
  forall g mp g',
    S.vary_patterns vf patterns g = (Returned mp, g') ->
    forall tp, slot_of patterns tp ->
      exists g1 tp' g2, S.vary_pattern vf tp g1 = (Returned tp', g2).
Proof.
  induction patterns as [| [day0 d0] t IH];
    intros g mp g' H tp (day & d & time & Hin & Hday & Hslot).
  - destruct Hin.
  - cbn [S.vary_patterns] in H.
    destruct Hin as [Heq | Hin].
    + inversion Heq; subst. rewrite Hday in H.
      do 2 bind_inv H. unfold S.vary_day in E. bind_inv E.
      eapply vary_slots_returned; eassumption.
    + assert (Hs : slot_of t tp) by (exists day, d, time; auto).
      destruct (String.eqb day0 "global_patterns").
      * eapply IH; eassumption.
      * do 2 bind_inv H. eapply IH; eassumption.
Qed.

Lemma vary_pattern_needs vf tp g tp' g' :
  S.vary_pattern vf tp g = (Returned tp', g') ->
  complete_slot tp /\ 0 <= vf.
Proof.
  intro H. apply vary_pattern_returned in H.
  destruct H as (ms & ms' & ws & cs & pc & cv & tr & zp & bs & mean & std
                 & lo & hi & Hms & Hws & Hcs & Hpc & Hcv & Htr & Hzp & Hbs
                 & Hmean & Hstd & Hlo & Hhi & _ & _ & Hvf & _ & _).
  split; [| apply Qlt_bool_0_nonneg, Hvf].
  unfold complete_slot. repeat (split; [congruence |]).
  exists bs. repeat split; congruence.
Qed.

Lemma meter_needs patterns s e oid vf g data tp :
  result (S.generate_meter_data patterns s e oid vf) g = Returned data ->
  slot_of patterns tp ->
  complete_slot tp /\ 0 <= vf.
Proof.
  intros H Hslot. apply result_returned in H.
  unfold S.generate_meter_data in H. bind_inv H.
  destruct (vary_patterns_returned _ _ _ _ _ E tp Hslot)
    as (g1 & tp' & g2 & Hv).
  eapply vary_pattern_needs; exact Hv.
Qed.

(** A meter is generated only if every slot of every day of the pattern
    file, [global_patterns] apart, defines all the keys that the copy
    reads, and the variation factor is not negative: a missing key or a
    negative factor raises before the first reading. *)
Theorem meter_needs_complete_slots patterns s e oid vf g data tp :
  result (S.generate_meter_data patterns s e oid vf) g = Returned data ->
  slot_of patterns tp ->
  complete_slot tp /\ 0 <= vf.
Proof.
  intros H Hslot. apply result_returned in H.
  unfold S.generate_meter_data in H. bind_inv H.
  destruct (vary_patterns_returned _ _ _ _ _ E tp Hslot)
    as (g1 & tp' & g2 & Hv).
  apply vary_pattern_returned in Hv.
  destruct Hv as (ms & ms' & ws & cs & pc & cv & tr & zp & bs & mean & std
                  & lo & hi & Hms & Hws & Hcs & Hpc & Hcv & Htr & Hzp & Hbs
                  & Hmean & Hstd & Hlo & Hhi & _ & _ & Hvf & _ & _).
  split; [| apply Qlt_bool_0_nonneg, Hvf].
  unfold complete_slot. repeat (split; [congruence |]).
  exists bs. repeat split; congruence.
Qed.

Lemma ex_slot_of_ex_patterns : slot_of ex_patterns ex_slot.
Proof.
  exists "Thursday"%string.
  exists {| S.slots :=
              [("00:00"%string, ex_slot); ("00:15"%string, ex_slot)];
            S.daily_sequence := Some ex_daily_sequence |}.
  exists "00:00"%string.
  split; [left; reflexivity | split; [reflexivity | left; reflexivity]].
Qed.

Lemma meter_needs_complete_slots_witness :
  complete_slot ex_slot /\ 0 <= 1 # 10.
Proof.
  refine (meter_needs_complete_slots ex_patterns 0%Z 1800%Z 1%Z (1 # 10)
            ex_rng _ ex_slot _ ex_slot_of_ex_patterns).
  vm_compute. reflexivity.
Defined.

(** ** The merged frame of the slot-grouped generator *)

Lemma collect_nil patterns s e base vf task_rng completion :
  (forall i data,
      result (S.generate_meter_data patterns s e (base + Z.of_nat i) vf)
             (task_rng i) <> Returned data) ->
  S.collect patterns s e base vf task_rng completion = [].
Proof.
  intro H. unfold S.collect.
  induction completion as [| i rest IH]; simpl; [reflexivity |].
  rewrite IH.
  destruct (fst _) as [data | ex] eqn:E; [| reflexivity].
  exfalso. exact (H i data E).
Qed.

(** One slot that lacks a key read by the copy, or a negative variation
    factor with at least one slot in the file, makes every meter fail, and
    the run then ends in the [ValueError] that [pd.concat] raises on an
    empty list: nothing is written. *)
Theorem run_aborts_on_unusable_slot
    patterns s e base vf task_rng completion tp :
  slot_of patterns tp ->
  ~ complete_slot tp \/ vf < 0 ->
  S.generate_synthetic_data patterns s e base vf task_rng completion
  = Raised ValueError.
Proof.
  intros Hslot Hbad. unfold S.generate_synthetic_data.
  rewrite collect_nil; [reflexivity |].
  intros i data Hr.
  destruct (meter_needs _ _ _ _ _ _ _ tp Hr Hslot)
    as [Hc Hvf].
  destruct Hbad as [Hn | Hneg]; [exact (Hn Hc) |].
  exact (Qlt_not_le _ _ Hneg Hvf).
Qed.

Lemma ex_slot_of_ex_patterns_no_transitions :
  slot_of ex_patterns_no_transitions ex_slot_no_transitions.
Proof.
  exists "Thursday"%string.
  exists {| S.slots := [("00:00"%string, ex_slot_no_transitions)];
            S.daily_sequence := Some ex_daily_sequence |}.
  exists "00:00"%string.
  split; [left; reflexivity | split; [reflexivity | left; reflexivity]].
Qed.

Lemma run_aborts_on_unusable_slot_witness :
  S.generate_synthetic_data ex_patterns_no_transitions 0 1800 1 (1 # 10)
    (fun _ => ex_rng) [0%nat; 1%nat] = Raised ValueError.
Proof.
  apply (run_aborts_on_unusable_slot ex_patterns_no_transitions 0%Z 1800%Z
           1%Z (1 # 10) (fun _ => ex_rng) [0%nat; 1%nat]
           ex_slot_no_transitions ex_slot_of_ex_patterns_no_transitions).
  left. unfold complete_slot. simpl. intros (_ & _ & _ & _ & _ & H & _).
  apply H. reflexivity.
Defined.

Lemma length_concat_uniform {A} (n : nat) (ls : list (list A)) :
  Forall (fun l => List.length l = n) ls ->
  List.length (List.concat ls) = (List.length ls * n)%nat.
Proof.
  induction 1 as [| l ls Hl _ IH]; simpl.
  - reflexivity.
  - rewrite length_app, IH, Hl. reflexivity.
Qed.

(** The frame written by the slot-grouped generator has one row per
    successful meter and timestamp of the range: its length is the number
    of meters that succeeded times the length of the range, and every row
    carries the identifier of a launched meter and a timestamp of the
    range. *)
Theorem merged_frame_rows patterns s e base vf task_rng completion final :
  S.generate_synthetic_data patterns s e base vf task_rng completion
  = Returned final ->
  List.length final
  = (List.length (S.collect patterns s e base vf task_rng completion)
     * List.length (Time.date_range s e))%nat
  /\ Forall
       (fun r =>
          (exists i, In i completion
                     /\ S.OBJECTID r = (base + Z.of_nat i)%Z)
          /\ In (S.TimeStamp r) (Time.date_range s e))
       final.
Proof.
  intro H. apply synthetic_data_spec in H. subst final.
  pose proof (collect_spec patterns s e base vf task_rng completion) as HC.
  split.
  - rewrite (Permutation_length (sort_values_permutation _)).
    apply length_concat_uniform.
    eapply Forall_impl; [| exact HC].
    intros md (i & _ & Hr). apply slot_meter_timestamps in Hr.
    destruct Hr as [Ht _]. rewrite <- Ht. symmetry. apply length_map.
  - eapply Permutation_Forall.
    + apply Permutation_sym, sort_values_permutation.
    + apply Forall_concat.
      eapply Forall_impl; [| exact HC].
      intros md (i & Hi & Hr). apply slot_meter_timestamps in Hr.
      destruct Hr as [Ht Ho]. apply Forall_forall. intros r Hin. split.
      * exists i. split; [exact Hi |].
        rewrite Forall_forall in Ho. exact (Ho r Hin).
      * rewrite <- Ht. apply in_map. exact Hin.
Qed.

Lemma merged_frame_rows_witness :
  exists final,
    S.generate_synthetic_data ex_patterns 0 1800 1 (1 # 10)
      (fun _ => ex_rng) [1%nat; 0%nat] = Returned final
    /\ List.length final = 6%nat.
Proof.
  eexists. split.
  - vm_compute. reflexivity.
  - match goal with
    | |- List.length ?l = _ =>
        assert (E : S.generate_synthetic_data ex_patterns 0 1800 1 (1 # 10)
                      (fun _ => ex_rng) [1%nat; 0%nat] = Returned l)
          by (vm_compute; reflexivity)
    end.
    destruct (merged_frame_rows _ _ _ _ _ _ _ _ E) as [Hl _].
    rewrite Hl. vm_compute. reflexivity.
Defined.

(** ** The occupancy step of the cluster generator *)

Lemma Qle_bool_compat (a b u : Q) : a == b -> Qle_bool a u = Qle_bool b u.
Proof.
  intro H. destruct (Qle_bool a u) eqn:Ea, (Qle_bool b u) eqn:Eb; auto.
  - apply Qle_bool_iff in Ea. rewrite H in Ea. apply Qle_bool_iff in Ea.
    congruence.
  - apply Qle_bool_iff in Eb. rewrite <- H in Eb. apply Qle_bool_iff in Eb.
    congruence.
Qed.

(** The draw among the states 0 and 1 with probabilities 0.5 and 0.5. *)
Lemma choice_half g :
  valid_rng g ->
  Np.choice [0%Z; 1%Z] [1 # 2; 1 # 2] g
  = (Returned (if Py.Qlt_bool (next_uniform g) (1 # 2) then 0%Z else 1%Z),
     skip_uniform g).
Proof.
  intro V. destruct (V (uniform_pos g)) as [_ Hlt].
  unfold Np.choice, Np.choice_index.
  cbn [List.length Nat.eqb negb].
  change (Np.probabilities_ok [1 # 2; 1 # 2]) with true.
  cbn [negb]. unfold bind, Np.random, ret.
  cbn [map Np.cumsum Np.searchsorted_right].
  fold (next_uniform g). fold (skip_uniform g).
  rewrite (Qle_bool_compat _ (1 # 2) (next_uniform g)) by reflexivity.
  rewrite (Qle_bool_compat ((0 + (1 # 2) + (1 # 2)) / _) 1 (next_uniform g))
    by reflexivity.
  unfold Py.Qlt_bool.
  assert (H1 : Qle_bool 1 (next_uniform g) = false).
  { destruct (Qle_bool 1 (next_uniform g)) eqn:E; [| reflexivity].
    apply Qle_bool_iff in E. exfalso. exact (Qlt_not_le _ _ Hlt E). }
  rewrite H1. destruct (Qle_bool (1 # 2) (next_uniform g)); reflexivity.
Qed.

(** When the transitions of the cluster have no entry for the current
    state, and when the cluster defines no transitions at all, the
    occupancy step raises nothing: it draws one uniform deviate and moves
    to state 0 if the deviate is below 0.5 and to state 1 otherwise. *)
Theorem cluster_default_transition current_state transitions g :
  valid_rng g ->
  Py.dict_get (Py.str_of_int current_state) transitions = None
  \/ transitions = C.default_transitions ->
  C.generate_consumption_state current_state transitions g
  = (Returned (if Py.Qlt_bool (next_uniform g) (1 # 2) then 0%Z else 1%Z),
     skip_uniform g).
Proof.
  intros V H. unfold C.generate_consumption_state.
  assert (Hp : match Py.dict_get (Py.str_of_int current_state) transitions
               with Some d => d | None => C.default_distribution end
               = C.default_distribution).
  { destruct H as [-> | ->]; [reflexivity |].
    unfold C.default_transitions. cbn [Py.dict_get].
    destruct (String.eqb _ _); reflexivity. }
  rewrite Hp.
  change (map fst C.default_distribution) with ["0"; "1"]%string.
  change (map snd C.default_distribution) with [1 # 2; 1 # 2].
  unfold bind at 1.
  change (C.ints ["0"; "1"]%string g) with (Returned [0%Z; 1%Z], g).
  apply choice_half, V.
Qed.

Lemma ex_rng_valid : valid_rng ex_rng.
Proof. intro n. split; vm_compute; [discriminate | reflexivity]. Qed.

Lemma cluster_default_transition_witness :
  C.generate_consumption_state 1 C.default_transitions ex_rng
  = (Returned 0%Z, skip_uniform ex_rng).
Proof.
  exact (cluster_default_transition 1%Z C.default_transitions ex_rng
           ex_rng_valid (or_intror eq_refl)).
Defined.

(** ** The generator's tapes are never written *)

Create HintDb tapes.

Lemma same_tapes_refl g : same_tapes g g.
Proof. split; reflexivity. Qed.

Lemma same_tapes_trans g1 g2 g3 :
  same_tapes g1 g2 -> same_tapes g2 g3 -> same_tapes g1 g3.
Proof. intros [A B] [C D]. split; congruence. Qed.

Lemma same_tapes_valid g g' : same_tapes g g' -> valid_rng g -> valid_rng g'.
Proof. intros [A _] V n. rewrite A. apply V. Qed.

Lemma keeps_ret {A} (a : A) : keeps_tapes (ret a).
Proof. intro g. apply same_tapes_refl. Qed.

Lemma keeps_raise {A} (e : exn) : keeps_tapes (@raise A e).
Proof. intro g. apply same_tapes_refl. Qed.

Lemma keeps_bind {A B} (m : M A) (k : A -> M B) :
  keeps_tapes m -> (forall a, keeps_tapes (k a)) -> keeps_tapes (bind m k).
Proof.
  intros Hm Hk g. unfold bind. specialize (Hm g).
  destruct (m g) as [[a | e] g1]; simpl in *.
  - eapply same_tapes_trans; [exact Hm | apply Hk].
  - exact Hm.
Qed.

Lemma keeps_try_except {A} (m h : M A) :
  keeps_tapes m -> keeps_tapes h -> keeps_tapes (try_except m h).
Proof.
  intros Hm Hh g. unfold try_except. specialize (Hm g).
  destruct (m g) as [[a | e] g1]; simpl in *.
  - exact Hm.
  - eapply same_tapes_trans; [exact Hm | apply Hh].
Qed.

Lemma keeps_subscript {A} (o : option A) : keeps_tapes (subscript o).
Proof. destruct o; [apply keeps_ret | apply keeps_raise]. Qed.

Lemma keeps_index {A} (l : list A) i : keeps_tapes (index l i).
Proof.
  unfold index. destruct (nth_error l i); [apply keeps_ret | apply keeps_raise].
Qed.

Lemma keeps_random : keeps_tapes Np.random.
Proof. intro g. split; reflexivity. Qed.

Lemma keeps_standard_normal : keeps_tapes Np.standard_normal.
Proof. intro g. split; reflexivity. Qed.

#[export] Hint Resolve keeps_ret keeps_raise keeps_subscript keeps_index
  keeps_random keeps_standard_normal : tapes.

(** Break a computation into its binds, branches and known parts. *)
Ltac keeps :=
  repeat (intros;
          match goal with
          | |- keeps_tapes (bind _ _) => apply keeps_bind
          | |- keeps_tapes (try_except _ _) => apply keeps_try_except
          | |- keeps_tapes (if ?b then _ else _) => destruct b
          | |- keeps_tapes (match ?x with _ => _ end) => destruct x
          | |- keeps_tapes _ => solve [auto with tapes]
          end).

Lemma keeps_normal loc scale : keeps_tapes (Np.normal loc scale).
Proof. unfold Np.normal. keeps. Qed.

Lemma keeps_normal_q loc scale : keeps_tapes (Np.normal_q loc scale).
Proof. unfold Np.normal_q. keeps. Qed.

Lemma keeps_choice_index n p : keeps_tapes (Np.choice_index n p).
Proof. unfold Np.choice_index. keeps. Qed.

#[export] Hint Resolve keeps_normal keeps_normal_q keeps_choice_index : tapes.

Lemma keeps_choice {A} (a : list A) p : keeps_tapes (Np.choice a p).
Proof. unfold Np.choice. keeps. Qed.

Lemma keeps_should_be_zero p prev : keeps_tapes (S.should_be_zero p prev).
Proof. unfold S.should_be_zero. keeps. Qed.

Lemma keeps_sample_mixture p : keeps_tapes (S.sample_mixture p).
Proof. unfold S.sample_mixture. keeps. Qed.

#[export] Hint Resolve keeps_choice keeps_should_be_zero
  keeps_sample_mixture : tapes.

Lemma keeps_slot_value p prev :
  keeps_tapes (S.generate_consumption_value p prev).
Proof. unfold S.generate_consumption_value. keeps. Qed.

#[export] Hint Resolve keeps_slot_value : tapes.

Lemma keeps_modulated_value p ds hour prev :
  keeps_tapes (S.modulated_value p ds hour prev).
Proof. unfold S.modulated_value. keeps. Qed.

#[export] Hint Resolve keeps_modulated_value : tapes.

Lemma keeps_slot_step mp t prev : keeps_tapes (S.slot_step mp t prev).
Proof. unfold S.slot_step. keeps. Qed.

Lemma keeps_perturb vf x : keeps_tapes (S.perturb vf x).
Proof. unfold S.perturb. keeps. Qed.

#[export] Hint Resolve keeps_slot_step keeps_perturb : tapes.

Lemma keeps_vary_means vf ms : keeps_tapes (S.vary_means vf ms).
Proof. induction ms; cbn [S.vary_means]; keeps. Qed.

#[export] Hint Resolve keeps_vary_means : tapes.

Lemma keeps_vary_pattern vf tp : keeps_tapes (S.vary_pattern vf tp).
Proof. unfold S.vary_pattern. keeps. Qed.

#[export] Hint Resolve keeps_vary_pattern : tapes.

Lemma keeps_vary_slots vf sl : keeps_tapes (S.vary_slots vf sl).
Proof. induction sl as [| [time tp] t IH]; cbn [S.vary_slots]; keeps. Qed.

#[export] Hint Resolve keeps_vary_slots : tapes.

Lemma keeps_vary_patterns vf ps : keeps_tapes (S.vary_patterns vf ps).
Proof.
  induction ps as [| [day d] t IH]; cbn [S.vary_patterns]; keeps.
  unfold S.vary_day. keeps.
Qed.

Lemma kept_after {A} (m : M A) g a g' :
  keeps_tapes m -> m g = (Returned a, g') -> same_tapes g g'.
Proof. intros H E. specialize (H g). rewrite E in H. exact H. Qed.

(** ** Meters that stay at zero *)

Lemma dict_get_In {V} (k : string) (d : list (string * V)) v :
  Py.dict_get k d = Some v -> In (k, v) d.
Proof.
  induction d as [| [k' v'] t IH]; simpl; [discriminate |].
  destruct (String.eqb k k') eqn:E.
  - apply String.eqb_eq in E. intro H. inversion H; subst. left. reflexivity.
  - intro H. right. apply IH, H.
Qed.

Lemma vary_slots_copies vf sl :
  forall g sl' g',
    S.vary_slots vf sl g = (Returned sl', g') ->
    forall time tp', In (time, tp') sl' ->
      exists tp, In (time, tp) sl /\ copy_of vf tp tp'.
Proof.
  induction sl as [| [time0 tp0] t IH]; intros g sl' g' H time tp' Hin.
  - cbn [S.vary_slots] in H. ret_inv H. destruct Hin.
  - cbn [S.vary_slots] in H. do 2 bind_inv H. ret_inv H.
    destruct Hin as [Heq | Hin].
    + inversion Heq; subst. exists tp0. split; [left; reflexivity |].
      exists g, g0. exact E.
    + destruct (IH _ _ _ E0 _ _ Hin) as (tp & Ht & Hc).
      exists tp. split; [right; exact Ht | exact Hc].
Qed.

Lemma vary_patterns_copies vf patterns :
  forall g mp g',
    S.vary_patterns vf patterns g = (Returned mp, g') ->
    forall day d' time tp',
      In (day, d') mp -> In (time, tp') (S.slots d') ->
      exists tp, slot_of patterns tp /\ copy_of vf tp tp'.
Proof.
  induction patterns as [| [day0 d0] t IH];
    intros g mp g' H day d' time tp' Hd Hs.
  - cbn [S.vary_patterns] in H. ret_inv H. destruct Hd.
  - cbn [S.vary_patterns] in H.
    assert (Hrest : forall g1 mp1 g2,
               S.vary_patterns vf t g1 = (Returned mp1, g2) ->
               In (day, d') mp1 ->
               exists tp, slot_of ((day0, d0) :: t) tp /\ copy_of vf tp tp').
    { intros g1 mp1 g2 H1 Hin.
      destruct (IH _ _ _ H1 _ _ _ _ Hin Hs)
        as (tp & (dy & d & tm & Hi & Hg & Hsl) & Hc).
      exists tp. split; [| exact Hc].
      exists dy, d, tm. split; [right; exact Hi | auto]. }
    destruct (String.eqb day0 "global_patterns") eqn:Eg.
    + eapply Hrest; eassumption.
    + do 2 bind_inv H. ret_inv H.
      destruct Hd as [Heq | Hd]; [| eapply Hrest; eassumption].
      inversion Heq; subst. unfold S.vary_day in E. bind_inv E. ret_inv E.
      simpl in Hs.
      destruct (vary_slots_copies _ _ _ _ _ E1 _ _ Hs) as (tp & Ht & Hc).
      exists tp. split; [| exact Hc].
      exists day, d0, time. split; [left; reflexivity | auto].
Qed.

Lemma active_slot_copy vf patterns g mp g' t tp' ds :
  S.vary_patterns vf patterns g = (Returned mp, g') ->
  S.active_slot mp t = Some (tp', ds) ->
  exists tp, slot_of patterns tp /\ copy_of vf tp tp'.
Proof.
  intros Hv Ha. unfold S.active_slot in Ha.
  destruct (Py.dict_get (Time.day_name t) mp) as [d' |] eqn:Ed;
    [| discriminate].
  destruct (Py.dict_get (Time.strftime_HM t) (S.slots d')) as [tp0 |] eqn:Es;
    [| discriminate].
  destruct (S.truthy tp0); [| discriminate].
  destruct (S.daily_sequence d'); [| discriminate].
  inversion Ha; subst.
  eapply vary_patterns_copies;
    [exact Hv | apply dict_get_In, Ed | apply dict_get_In, Es].
Qed.

(** *** Slots that can only give 0 *)

Lemma stays_zero_silent tp : stays_zero tp -> silent tp.
Proof.
  intros (tr & p & Htr & Hp & Hle) g v g' V H.
  unfold S.generate_consumption_value, S.should_be_zero in H.
  rewrite Htr in H. change (Qeq_bool 0 0) with true in H.
  cbn [subscript] in H. unfold bind, Np.random, ret in H.
  cbn beta iota in H. rewrite Hp in H. cbn [subscript] in H.
  unfold ret in H. cbn beta iota in H.
  destruct (V (uniform_pos g)) as [Hge _].
  assert (Hf : Py.Qlt_bool (uniform_tape g (uniform_pos g)) p = false).
  { apply Qlt_bool_false. eapply Qle_trans; eassumption. }
  rewrite Hf in H. inversion H. reflexivity.
Qed.

Lemma sample_mixture_unusable tp g :
  unusable_mixture tp -> exists e, S.sample_mixture tp g = (Raised e, g).
Proof.
  intros [Hm | (ms & ws & Hm & Hw & Hoff)].
  - unfold S.sample_mixture. rewrite Hm. cbn [subscript].
    unfold bind at 1. unfold ret at 1.
    destruct (S.gmm_weights tp) as [ws |]; cbn [subscript].
    + unfold bind at 1. unfold ret at 1. unfold bind at 1.
      exists ValueError. reflexivity.
    + exists KeyError. reflexivity.
  - exists ValueError.
    exact (slot_mixture_off_unit_sum tp ms ws g Hm Hw Hoff).
Qed.

(** *** A walk through slots that can only give 0 *)

Section ZeroWalk.

(** What is known of the generator all along the walk. *)
Variable known : rng -> Prop.
Hypothesis known_kept : forall g g', same_tapes g g' -> known g -> known g'.

Lemma known_after {A} (m : M A) g a g' :
  keeps_tapes m -> m g = (Returned a, g') -> known g -> known g'.
Proof.
  intros Hk E K. apply (known_kept g); [| exact K].
  eapply kept_after; eassumption.
Qed.

(** Carry [known] over every successful call in the context. *)
Ltac carry_known :=
  repeat match goal with
         | K : known ?g, E : ?m ?g = (Returned _, ?g') |- _ =>
             lazymatch goal with
             | _ : known g' |- _ => fail
             | _ =>
                 assert (known g')
                   by (eapply known_after;
                       [| exact E | exact K]; auto with tapes)
             end
         end.

Lemma modulated_quiet tp ds hour g v g' :
  silent_when known tp -> known g ->
  S.modulated_value tp ds hour 0 g = (Returned v, g') -> v = 0.
Proof.
  intros Hq K H. unfold S.modulated_value in H. do 2 bind_inv H.
  apply subscript_returned in E. destruct E as [_ ->].
  apply subscript_returned in E0. destruct E0 as [_ ->].
  destruct (Py.mem_Z hour a).
  - bind_inv H. pose proof (Hq _ _ _ K E) as ->.
    change (Qeq_bool 0 0) with true in H. cbn iota in H. bind_inv H.
    carry_known.
    destruct (Py.Qlt_bool _ (7 # 10)).
    + eapply Hq; eassumption.
    + ret_inv H. reflexivity.
  - destruct (Py.mem_Z hour a0).
    + bind_inv H. carry_known.
      destruct (Py.Qlt_bool _ (8 # 10)).
      * ret_inv H. reflexivity.
      * eapply Hq; eassumption.
    + eapply Hq; eassumption.
Qed.

Lemma slot_step_quiet mp t g c prev' g' :
  (forall tp ds,
      S.active_slot mp t = Some (tp, ds) -> silent_when known tp) ->
  known g ->
  S.slot_step mp t 0 g = (Returned (c, prev'), g') ->
  c = 0 /\ prev' = 0.
Proof.
  intros Hq K H. unfold S.slot_step in H.
  destruct (S.active_slot mp t) as [[tp ds] |] eqn:Ea.
  - bind_inv H. pose proof (modulated_quiet _ _ _ _ _ _ (Hq _ _ eq_refl) K E)
      as ->.
    change (Py.Qlt_bool 0 0) with false in H. cbn iota in H.
    bind_inv H. ret_inv E0. ret_inv H. split; reflexivity.
  - ret_inv H. split; reflexivity.
Qed.

Lemma walk_quiet mp oid ts :
  (forall t tp ds,
      S.active_slot mp t = Some (tp, ds) -> silent_when known tp) ->
  forall g data final g',
    known g ->
    S.walk mp oid ts 0 g = (Returned (data, final), g') ->
    Forall (fun r => S.Consumption r = Py.round2 0) data.
Proof.
  intro Hq. induction ts as [| t ts IH]; intros g data final g' K H.
  - cbn [S.walk] in H. ret_inv H. constructor.
  - cbn [S.walk] in H. bind_inv H. destruct a as [c prev'].
    bind_inv H. destruct a as [data' final']. ret_inv H.
    destruct (slot_step_quiet _ _ _ _ _ _ (Hq t) K E) as [-> ->].
    constructor; [reflexivity |].
    eapply IH; [| exact E0].
    apply (known_kept g); [| exact K].
    eapply kept_after; [apply keeps_slot_step | exact E].
Qed.

End ZeroWalk.

Lemma copy_keeps_stays_zero vf tp tp' :
  copy_of vf tp tp' -> stays_zero tp -> stays_zero tp'.
Proof.
  intros (g1 & g2 & H) (tr & p & Htr & Hp & Hle).
  apply vary_pattern_returned in H.
  destruct H as (ms & ms' & ws & cs & pc & cv & tr0 & zp & bs & mean & std
                 & lo & hi & _ & _ & _ & _ & _ & Htr0 & _ & _
                 & _ & _ & _ & _ & _ & _ & _ & _ & ->).
  exists tr, p. cbn [S.transitions]. split; [congruence | auto].
Qed.

Lemma copy_keeps_unusable_mixture vf tp tp' :
  copy_of vf tp tp' -> unusable_mixture tp -> unusable_mixture tp'.
Proof.
  intros (g1 & g2 & H) Hu.
  apply vary_pattern_returned in H.
  destruct H as (ms & ms' & ws & cs & pc & cv & tr0 & zp & bs & mean & std
                 & lo & hi & Hms & Hws & _ & _ & _ & _ & _ & _
                 & _ & _ & _ & _ & Hl & _ & _ & _ & ->).
  destruct Hu as [Hm | (ms1 & ws1 & Hm & Hw & Hoff)].
  - left. cbn [S.gmm_means]. rewrite Hm in Hms. inversion Hms; subst.
    destruct ms'; [reflexivity | discriminate].
  - right. exists ms', ws. cbn [S.gmm_means S.gmm_weights].
    split; [reflexivity | split; [reflexivity |]].
    rewrite Hw in Hws. inversion Hws; subst. exact Hoff.
Qed.

Lemma round2_0 : Py.round2 0 == 0.
Proof. vm_compute. reflexivity. Qed.

(** If, in every slot of the pattern file, the probability of leaving the
    zero state is 0 (or less), every reading of every meter is 0, whatever
    the timestamps and whatever the generator returns: the meter starts in
    the zero state and no draw, be it for the peak hours, the zero periods
    or the common value, takes it out of it. *)
Theorem never_leaves_zero patterns s e oid vf g data :
  (forall tp, slot_of patterns tp -> stays_zero tp) ->
  valid_rng g ->
  result (S.generate_meter_data patterns s e oid vf) g = Returned data ->
  Forall (fun r => S.Consumption r == 0) data.
Proof.
  intros Hall V H. apply result_returned in H.
  unfold S.generate_meter_data in H. bind_inv H. bind_inv H.
  destruct a0 as [d f]. ret_inv H.
  eapply Forall_impl;
    [| eapply (walk_quiet valid_rng same_tapes_valid); [| | exact E0]].
  - intros r ->. apply round2_0.
  - intros t tp' ds Ha g1 v g2 V1 Hv.
    destruct (active_slot_copy _ _ _ _ _ _ _ _ E Ha) as (tp & Hs & Hc).
    eapply (stays_zero_silent tp'); [| exact V1 | exact Hv].
    eapply copy_keeps_stays_zero; [exact Hc | apply Hall, Hs].
  - eapply same_tapes_valid; [| exact V].
    eapply kept_after; [apply keeps_vary_patterns | exact E].
Qed.

Lemma ex_patterns_idle_stay_zero tp :
  slot_of ex_patterns_idle tp -> stays_zero tp.
Proof.
  intros (day & d & time & Hin & _ & Hs).
  destruct Hin as [Heq | []]. inversion Heq; subst. simpl in Hs.
  assert (tp = ex_slot_idle) as ->.
  { destruct Hs as [H | [H | []]]; inversion H; reflexivity. }
  eexists. exists 0. repeat split. discriminate.
Qed.

Lemma never_leaves_zero_witness :
  exists data,
    result (S.generate_meter_data ex_patterns_idle 0 1800 1 (1 # 10)) ex_rng
    = Returned data
    /\ Forall (fun r => S.Consumption r == 0) data.
Proof.
  eexists. split.
  - vm_compute. reflexivity.
  - match goal with
    | |- Forall _ ?l =>
        assert (E : result (S.generate_meter_data ex_patterns_idle 0 1800 1
                              (1 # 10)) ex_rng = Returned l)
          by (vm_compute; reflexivity)
    end.
    exact (never_leaves_zero ex_patterns_idle 0%Z 1800%Z 1%Z (1 # 10) ex_rng
             _ ex_patterns_idle_stay_zero ex_rng_valid E).
Defined.

Lemma unusable_mixture_mute tp :
  unusable_mixture tp -> silent_when any_rng tp.
Proof.
  intros Hu g v g' _ H. unfold S.generate_consumption_value in H.
  bind_inv H. destruct a.
  - ret_inv H. reflexivity.
  - destruct (sample_mixture_unusable tp g0 Hu) as (e & He).
    rewrite He in H. discriminate.
Qed.

(** If every slot of the pattern file has a mixture that cannot be sampled
    (no component, or weights that fail the sum-to-one test of
    [np.random.choice]), a meter either raises or has only readings equal
    to 0: the first draw of a value raises, and before it the meter is in
    the zero state. *)
Theorem unsampled_meter_reads_zero patterns s e oid vf g data :
  (forall tp, slot_of patterns tp -> unusable_mixture tp) ->
  result (S.generate_meter_data patterns s e oid vf) g = Returned data ->
  Forall (fun r => S.Consumption r == 0) data.
Proof.
  intros Hall H. apply result_returned in H.
  unfold S.generate_meter_data in H. bind_inv H. bind_inv H.
  destruct a0 as [d f]. ret_inv H.
  eapply Forall_impl;
    [| eapply (walk_quiet any_rng (fun _ _ _ _ => I)); [| exact I | exact E0]].
  - intros r ->. apply round2_0.
  - intros t tp' ds Ha.
    destruct (active_slot_copy _ _ _ _ _ _ _ _ E Ha) as (tp & Hs & Hc).
    apply unusable_mixture_mute.
    eapply copy_keeps_unusable_mixture; [exact Hc | apply Hall, Hs].
Qed.

Lemma ex_patterns_light_weights_unusable tp :
  slot_of ex_patterns_light_weights tp -> unusable_mixture tp.
Proof.
  intros (day & d & time & Hin & _ & Hs).
  destruct Hin as [Heq | []]. inversion Heq; subst. simpl in Hs.
  assert (tp = ex_slot_light_even) as ->.
  { destruct Hs as [H | [H | []]]; inversion H; reflexivity. }
  right. eexists. eexists. split; [reflexivity | split; [reflexivity |]].
  unfold off_unit_sum. vm_compute. intro H. apply H. reflexivity.
Qed.

Lemma unsampled_meter_reads_zero_witness :
  exists data,
    result (S.generate_meter_data ex_patterns_light_weights 0 1800 1
              (1 # 10)) ex_rng_high
    = Returned data
    /\ Forall (fun r => S.Consumption r == 0) data.
Proof.
  eexists. split.
  - vm_compute. reflexivity.
  - match goal with
    | |- Forall _ ?l =>
        assert (E : result (S.generate_meter_data ex_patterns_light_weights
                              0 1800 1 (1 # 10)) ex_rng_high = Returned l)
          by (vm_compute; reflexivity)
    end.
    exact (unsampled_meter_reads_zero ex_patterns_light_weights 0%Z 1800%Z
             1%Z (1 # 10) ex_rng_high _ ex_patterns_light_weights_unusable E).
Defined.

(** ** Timestamps without a slot *)

Lemma has_slot_false mp t : has_slot mp t = false -> S.active_slot mp t = None.
Proof.
  unfold has_slot. destruct (S.active_slot mp t); [discriminate | reflexivity].
Qed.

Lemma walk_cons_gap mp oid t ts prev g :
  has_slot mp t = false ->
  S.walk mp oid (t :: ts) prev g
  = match S.walk mp oid ts prev g with
    | (Returned (data, final), g') =>
        (Returned (S.mk_reading oid t (Py.round2 0) :: data, final), g')
    | (Raised e, g') => (Raised e, g')
    end.
Proof.
  intro Hs. cbn [S.walk]. unfold S.slot_step.
  rewrite (has_slot_false _ _ Hs). unfold bind at 1. unfold ret at 1.
  unfold bind. destruct (S.walk mp oid ts prev g) as [[[data final] | e] g'];
    reflexivity.
Qed.

(** The loop of [generate_meter_data] passes over a timestamp without a
    usable slot (no entry for its weekday or its time of day, an empty
    entry, or a day without [daily_sequence]) as if it were not in the
    range: the reading is 0, nothing is drawn and [previous_value] is kept,
    so the readings of the other timestamps, the last [previous_value] and
    the generator afterwards are those of the loop over the timestamps that
    have a slot. *)
Theorem gaps_are_transparent mp oid ts prev g data final g' :
  S.walk mp oid ts prev g = (Returned (data, final), g') ->
  S.walk mp oid (filter (has_slot mp) ts) prev g
  = (Returned (slot_readings mp data, final), g')
  /\ Forall (fun r => has_slot mp (S.TimeStamp r) = false ->
                      S.Consumption r = Py.round2 0) data.
Proof.
  revert prev g data final g'.
  induction ts as [| t ts IH]; intros prev g data final g' H.
  - cbn [S.walk] in H. ret_inv H. split; [reflexivity | constructor].
  - destruct (has_slot mp t) eqn:Hs.
    + cbn [filter]. rewrite Hs. cbn [S.walk] in H |- *.
      bind_inv H. destruct a as [c prev']. bind_inv H.
      destruct a as [data' final']. ret_inv H.
      destruct (IH _ _ _ _ _ E0) as [Hw Hz]. split.
      * unfold bind. rewrite E. cbn beta iota. rewrite Hw.
        unfold slot_readings. cbn [filter S.TimeStamp]. rewrite Hs.
        reflexivity.
      * constructor; [| exact Hz]. cbn [S.TimeStamp]. congruence.
    + cbn [filter]. rewrite Hs. rewrite (walk_cons_gap _ _ _ _ _ _ Hs) in H.
      destruct (S.walk mp oid ts prev g) as [[[data' final'] | e] gx] eqn:Ew;
        [| discriminate].
      inversion H; subst. destruct (IH _ _ _ _ _ Ew) as [Hw Hz]. split.
      * rewrite Hw. unfold slot_readings. cbn [filter S.TimeStamp].
        rewrite Hs. reflexivity.
      * constructor; [| exact Hz]. reflexivity.
Qed.

Lemma gaps_are_transparent_witness :
  exists data final g',
    S.walk ex_patterns 1 [0; 900; 1800; 2700]%Z 0 ex_rng
    = (Returned (data, final), g')
    /\ S.walk ex_patterns 1 [0; 900]%Z 0 ex_rng
       = (Returned (slot_readings ex_patterns data, final), g').
Proof.
  eexists. eexists. eexists. split.
  - vm_compute. reflexivity.
  - match goal with
    | |- _ = (Returned (slot_readings _ ?d, ?f), ?g1) =>
        assert (E : S.walk ex_patterns 1 [0; 900; 1800; 2700]%Z 0 ex_rng
                    = (Returned (d, f), g1))
          by (vm_compute; reflexivity)
    end.
    exact (proj1 (gaps_are_transparent ex_patterns 1%Z [0; 900; 1800; 2700]%Z
                    0 ex_rng _ _ _ E)).
Defined.

(** ** The value drawn from the mixture is clamped *)

Lemma max2_cases a b :
  (Py.max2 a b = b /\ a < b) \/ (Py.max2 a b = a /\ b <= a).
Proof.
  unfold Py.max2. destruct (Py.Qlt_bool a b) eqn:E.
  - left. split; [reflexivity |]. unfold Py.Qlt_bool in E.
    apply negb_true_iff in E. apply Qnot_le_lt. intro Hle.
    apply Qle_bool_iff in Hle. congruence.
  - right. split; [reflexivity |]. unfold Py.Qlt_bool in E.
    apply negb_false_iff in E. apply Qle_bool_iff, E.
Qed.

Lemma min2_cases a b :
  (Py.min2 a b = b /\ b < a) \/ (Py.min2 a b = a /\ a <= b).
Proof.
  unfold Py.min2. destruct (Py.Qlt_bool b a) eqn:E.
  - left. split; [reflexivity |]. unfold Py.Qlt_bool in E.
    apply negb_true_iff in E. apply Qnot_le_lt. intro Hle.
    apply Qle_bool_iff in Hle. congruence.
  - right. split; [reflexivity |]. unfold Py.Qlt_bool in E.
    apply negb_false_iff in E. apply Qle_bool_iff, E.
Qed.

Lemma clamp_range lo hi (x : option Q) :
  lo <= hi ->
  lo <= Py.max2 lo (Py.min2_nan hi x) /\ Py.max2 lo (Py.min2_nan hi x) <= hi.
Proof.
  intro H.
  assert (Hm : Py.min2_nan hi x <= hi).
  { destruct x as [v |]; cbn [Py.min2_nan]; [| apply Qle_refl].
    destruct (min2_cases hi v) as [[-> Hlt] | [-> _]];
      [apply Qlt_le_weak, Hlt | apply Qle_refl]. }
  destruct (max2_cases lo (Py.min2_nan hi x)) as [[-> Hlt] | [-> _]].
  - split; [apply Qlt_le_weak, Hlt | exact Hm].
  - split; [apply Qle_refl | exact H].
Qed.

(** A value returned by the sampler of the slot-grouped generator is 0, or
    the common value of the slot raised to 0, or lies between the [min] and
    the [max] of the slot's basic statistics, when these are ordered and
    [min] is not negative: the draw from the mixture, NaN included, never
    leaves that range. *)
Theorem sample_is_clamped tp prev g v g' bs lo hi :
  S.basic_stats tp = Some bs ->
  S.stat_min bs = Some lo -> S.stat_max bs = Some hi ->
  0 <= lo -> lo <= hi ->
  S.generate_consumption_value tp prev g = (Returned v, g') ->
  v = 0
  \/ (exists cv, S.common_values tp = Some cv /\ v = Py.max2 0 cv)
  \/ (lo <= v /\ v <= hi).
Proof.
  intros Hbs Hlo Hhi H0 Hle H. unfold S.generate_consumption_value in H.
  bind_inv H. destruct a; [ret_inv H; left; reflexivity |].
  unfold S.sample_mixture in H. repeat bind_inv H. ret_inv H.
  repeat match goal with
         | E : subscript _ _ = (Returned _, _) |- _ =>
             apply subscript_returned in E; destruct E as [? ?]; subst
         end.
  match goal with
  | E : (if ?b then _ else _) _ = (Returned _, _) |- _ =>
      destruct b; [apply subscript_returned in E; destruct E as [Hcv _] |
                   ret_inv E]
  end.
  - right. left. eexists. split; [exact Hcv | reflexivity].
  - match goal with
    | H' : S.basic_stats tp = Some ?b |- _ =>
        assert (b = bs) by congruence; subst b
    end.
    match goal with
    | H' : S.stat_min bs = Some ?x |- _ =>
        assert (x = lo) by congruence; subst x
    end.
    match goal with
    | H' : S.stat_max bs = Some ?x |- _ =>
        assert (x = hi) by congruence; subst x
    end.
    match goal with
    | |- context [Py.min2_nan hi ?x] =>
        destruct (clamp_range lo hi x Hle) as [Hl Hh];
        destruct (max2_cases 0 (Py.max2 lo (Py.min2_nan hi x)))
          as [[-> _] | [-> _]]
    end.
    + right. right. split; assumption.
    + left. reflexivity.
Qed.

Lemma sample_is_clamped_witness :
  exists v g',
    S.generate_consumption_value ex_slot 0 ex_rng_high = (Returned v, g')
    /\ (v = 0 \/ (exists cv, S.common_values ex_slot = Some cv
                             /\ v = Py.max2 0 cv)
        \/ (0 <= v /\ v <= 20)).
Proof.
  eexists. eexists. split.
  - vm_compute. reflexivity.
  - match goal with
    | |- ?x = 0 \/ _ =>
        assert (E : exists g1,
                   S.generate_consumption_value ex_slot 0 ex_rng_high
                   = (Returned x, g1))
          by (eexists; vm_compute; reflexivity)
    end.
    destruct E as [g1 E].
    refine (sample_is_clamped ex_slot 0 ex_rng_high _ g1 _ 0 20
              eq_refl eq_refl eq_refl _ _ E); discriminate.
Defined.

(** ** The order in which the tasks complete *)

Lemma NoDup_map_injective {A B} (f : A -> B) l :
  (forall x y, f x = f y -> x = y) -> NoDup l -> NoDup (map f l).
Proof.
  intros Hf. induction 1 as [| x l Hx Hn IH]; simpl; constructor.
  - intro Hin. apply in_map_iff in Hin. destruct Hin as (y & Hy & Hin).
    apply Hf in Hy. subst y. exact (Hx Hin).
  - exact IH.
Qed.

Lemma date_range_NoDup s e : NoDup (Time.date_range s e).
Proof.
  unfold Time.date_range. destruct (e <? s)%Z; [constructor |].
  apply NoDup_map_injective; [intros x y H; lia | apply seq_NoDup].
Qed.

Lemma In_map_NoDup_eq {A B} (f : A -> B) l a b :
  NoDup (map f l) -> In a l -> In b l -> f a = f b -> a = b.
Proof.
  induction l as [| x l IH]; simpl; intros Hn Ha Hb E; [destruct Ha |].
  inversion Hn as [| ? ? Hx Hn']; subst.
  destruct Ha as [-> | Ha], Hb as [-> | Hb]; auto.
  - exfalso. apply Hx. rewrite E. apply in_map, Hb.
  - exfalso. apply Hx. rewrite <- E. apply in_map, Ha.
Qed.

Lemma sorted_permutation_unique (l1 : list S.reading) :
  forall l2,
    StronglySorted key_le l1 -> StronglySorted key_le l2 ->
    Permutation l1 l2 ->
    (forall a b, In a l1 -> In b l1 -> key_le a b -> key_le b a -> a = b) ->
    l1 = l2.
Proof.
  induction l1 as [| x l1 IH]; intros l2 S1 S2 P Hanti.
  - apply Permutation_nil in P. subst. reflexivity.
  - destruct l2 as [| y l2];
      [apply Permutation_sym, Permutation_nil in P; discriminate |].
    inversion S1 as [| ? ? S1' F1]; inversion S2 as [| ? ? S2' F2]; subst.
    assert (Exy : x = y).
    { assert (Hy : In y (x :: l1))
        by (eapply Permutation_in;
            [apply Permutation_sym, P | left; reflexivity]).
      assert (Hx : In x (y :: l2))
        by (eapply Permutation_in; [exact P | left; reflexivity]).
      destruct Hy as [Hy | Hy]; [exact Hy |].
      destruct Hx as [Hx | Hx]; [symmetry; exact Hx |].
      apply Hanti; [left; reflexivity | right; exact Hy | |].
      - rewrite Forall_forall in F1. apply F1, Hy.
      - rewrite Forall_forall in F2. apply F2, Hx. }
    subst y. f_equal. apply IH; auto.
    + eapply Permutation_cons_inv. exact P.
    + intros a b Ha Hb. apply Hanti; right; assumption.
Qed.

Lemma concat_permutation {A} (l1 l2 : list (list A)) :
  Permutation l1 l2 -> Permutation (List.concat l1) (List.concat l2).
Proof.
  induction 1 as [| x l l' _ IH | x y l | l l' l'' _ IH1 _ IH2]; simpl.
  - constructor.
  - apply Permutation_app_head, IH.
  - rewrite !app_assoc. apply Permutation_app_tail, Permutation_app_comm.
  - eapply perm_trans; eassumption.
Qed.

Lemma same_key_same_row patterns s e base vf task_rng completion a b :
  In a (List.concat (S.collect patterns s e base vf task_rng completion)) ->
  In b (List.concat (S.collect patterns s e base vf task_rng completion)) ->
  key_le a b -> key_le b a -> a = b.
Proof.
  intros Ha Hb Hab Hba.
  pose proof (collect_spec patterns s e base vf task_rng completion) as HC.
  rewrite Forall_forall in HC.
  apply in_concat in Ha. destruct Ha as (da & Hda & Ha).
  apply in_concat in Hb. destruct Hb as (db & Hdb & Hb).
  destruct (HC _ Hda) as (i & _ & Hi). destruct (HC _ Hdb) as (j & _ & Hj).
  destruct (slot_meter_timestamps _ _ _ _ _ _ _ Hi) as [Hti Hoi].
  destruct (slot_meter_timestamps _ _ _ _ _ _ _ Hj) as [_ Hoj].
  rewrite Forall_forall in Hoi, Hoj.
  pose proof (Hoi _ Ha) as Oa. pose proof (Hoj _ Hb) as Ob.
  unfold key_le, S.key_leb in Hab, Hba.
  assert (Et : S.TimeStamp a = S.TimeStamp b) by lia.
  assert (Eo : S.OBJECTID a = S.OBJECTID b) by lia.
  assert (i = j) by lia. subst j.
  assert (da = db) by congruence. subst db.
  apply (In_map_NoDup_eq S.TimeStamp da); auto.
  rewrite Hti. apply date_range_NoDup.
Qed.

(** The frame that the slot-grouped generator writes does not depend on the
    order in which the tasks of the thread pool complete: given the
    deviates that each task draws, two orders of completion give the same
    rows in the same order, or the same exception. *)
Theorem completion_order_is_immaterial
    patterns s e base vf task_rng completion completion' :
  Permutation completion completion' ->
  S.generate_synthetic_data patterns s e base vf task_rng completion
  = S.generate_synthetic_data patterns s e base vf task_rng completion'.
Proof.
  intro P. unfold S.generate_synthetic_data.
  assert (PC : Permutation
                 (S.collect patterns s e base vf task_rng completion)
                 (S.collect patterns s e base vf task_rng completion'))
    by (apply Permutation_flat_map, P).
  pose proof (same_key_same_row patterns s e base vf task_rng completion)
    as Hanti.
  pose proof (concat_permutation _ _ PC) as PF.
  destruct (S.collect patterns s e base vf task_rng completion)
    as [| d ds] eqn:E1.
  - apply Permutation_nil in PC. rewrite PC. reflexivity.
  - destruct (S.collect patterns s e base vf task_rng completion')
      as [| d' ds'] eqn:E2;
      [apply Permutation_sym, Permutation_nil in PC; discriminate |].
    destruct (List.concat (d :: ds)) as [| r rs] eqn:F1.
    + apply Permutation_nil in PF. rewrite PF. reflexivity.
    + destruct (List.concat (d' :: ds')) as [| r' rs'] eqn:F2;
        [apply Permutation_sym, Permutation_nil in PF; discriminate |].
      f_equal. apply sorted_permutation_unique.
      * apply sort_values_strongly_sorted.
      * apply sort_values_strongly_sorted.
      * eapply perm_trans; [apply sort_values_permutation |].
        eapply perm_trans; [exact PF |].
        apply Permutation_sym, sort_values_permutation.
      * intros a b Ha Hb. apply Hanti.
        -- eapply Permutation_in; [apply sort_values_permutation | exact Ha].
        -- eapply Permutation_in; [apply sort_values_permutation | exact Hb].
Qed.

Lemma completion_order_is_immaterial_witness :
  S.generate_synthetic_data ex_patterns 0 1800 1 (1 # 10)
    (fun i => if (i =? 0)%nat then ex_rng else ex_rng_high) [0%nat; 1%nat]
  = S.generate_synthetic_data ex_patterns 0 1800 1 (1 # 10)
      (fun i => if (i =? 0)%nat then ex_rng else ex_rng_high) [1%nat; 0%nat].
Proof.
  apply (completion_order_is_immaterial ex_patterns 0%Z 1800%Z 1%Z (1 # 10)
           (fun i => if (i =? 0)%nat then ex_rng else ex_rng_high)
           [0%nat; 1%nat] [1%nat; 0%nat]).
  apply perm_swap.
Defined.

(** ** An empty range *)

(** When the end of the range is before its start no file is written: the
    run raises the [ValueError] of [pd.concat] if every meter failed, and
    otherwise the [KeyError] of [sort_values], the frames of the meters
    having no row and so no column. *)
Theorem empty_range_raises patterns s e base vf task_rng completion :
  (e < s)%Z ->
  S.generate_synthetic_data patterns s e base vf task_rng completion
  = Raised
      (match S.collect patterns s e base vf task_rng completion with
       | [] => ValueError
       | _ :: _ => KeyError
       end).
Proof.
  intro H. unfold S.generate_synthetic_data.
  pose proof (collect_spec patterns s e base vf task_rng completion) as HC.
  destruct (S.collect patterns s e base vf task_rng completion)
    as [| d ds]; [reflexivity |].
  assert (Hnil : List.concat (d :: ds) = []).
  { apply concat_nil_Forall. eapply Forall_impl; [| exact HC].
    intros md (i & _ & Hi). apply slot_meter_timestamps in Hi.
    destruct Hi as [Ht _]. unfold Time.date_range in Ht.
    apply Z.ltb_lt in H. rewrite H in Ht.
    destruct md; [reflexivity | discriminate]. }
  rewrite Hnil. reflexivity.
Qed.

Lemma empty_range_raises_witness :
  S.generate_synthetic_data ex_patterns 1800 0 1 (1 # 10)
    (fun _ => ex_rng) [0%nat] = Raised KeyError.
Proof.
  exact (empty_range_raises ex_patterns 1800%Z 0%Z 1%Z (1 # 10)
           (fun _ => ex_rng) [0%nat] eq_refl).
Defined.

(** ** The cluster generator's loop over the meters *)

Lemma try_except_ret {A} (m : M A) (x : A) g :
  exists a g', try_except m (ret x) g = (Returned a, g').
Proof.
  unfold try_except, ret. destruct (m g) as [[a | e] g1]; eauto.
Qed.

Lemma meters_returns pd np ti sd n :
  forall id g,
    exists rows g', C.meters pd np ti sd n id g = (Returned rows, g').
Proof.
  induction n as [| n IH]; intros id g; cbn [C.meters].
  - eexists. eexists. reflexivity.
  - destruct (try_except_ret (C.one_meter pd id np ti sd) [] g)
      as (a & g1 & E).
    destruct (IH (id + 1)%Z g1) as (r & g2 & E2).
    exists (a ++ r), g2. unfold bind. rewrite E, E2. reflexivity.
Qed.

(** Once the pattern file is loaded and the start date parsed, the loop of
    the cluster generator over the meters never raises, whatever the file
    holds and whatever is drawn: every exception of a meter is caught and
    the meter skipped, so a frame, possibly empty, is always written. *)
Theorem cluster_run_never_raises pd nm np ti sd g :
  exists rows,
    result (C.generate_synthetic_data pd nm np ti sd) g = Returned rows.
Proof.
  unfold C.generate_synthetic_data, result.
  destruct (meters_returns pd np ti sd (Z.to_nat nm) 1%Z g) as (r & g' & E).
  exists r. rewrite E. reflexivity.
Qed.

Lemma one_meter_unusable pd id np ti sd g :
  unusable_file pd ->
  exists e g', C.one_meter pd id np ti sd g = (Raised e, g').
Proof.
  unfold C.one_meter.
  intros [Hp | [Hp | (probs & Hp & Hoff)]].
  - rewrite Hp. eexists. eexists. reflexivity.
  - destruct (C.cluster_probabilities pd) as [probs |];
      [| eexists; eexists; reflexivity].
    cbn [subscript]. unfold bind at 1. unfold ret at 1.
    unfold bind at 1.
    destruct (C.assign_cluster probs g) as [[cl | e] g1];
      [| eexists; eexists; reflexivity].
    rewrite Hp. eexists. eexists. reflexivity.
  - rewrite Hp. cbn [subscript]. unfold bind at 1. unfold ret at 1.
    unfold bind at 1. unfold C.assign_cluster, Np.choice. unfold bind at 1.
    rewrite (choice_index_off_unit_sum _ _ g Hoff).
    eexists. eexists. reflexivity.
Qed.

Lemma meters_unusable pd np ti sd n :
  unusable_file pd ->
  forall id g rows g',
    C.meters pd np ti sd n id g = (Returned rows, g') -> rows = [].
Proof.
  intro Hu. induction n as [| n IH]; intros id g rows g' H.
  - cbn [C.meters] in H. ret_inv H. reflexivity.
  - cbn [C.meters] in H. do 2 bind_inv H. ret_inv H.
    rewrite (IH _ _ _ _ E0), app_nil_r.
    apply try_except_returned in E. destruct E as [E | (e & gx & _ & E)].
    + destruct (one_meter_unusable pd id np ti sd g Hu) as (e & gx & He).
      congruence.
    + ret_inv E. reflexivity.
Qed.

(** A pattern file without [cluster_probabilities] or without [patterns],
    or whose cluster probabilities fail the sum-to-one test of
    [np.random.choice], makes every meter fail: the cluster generator then
    writes an empty frame, without raising. *)
Theorem unusable_file_gives_empty_frame pd nm np ti sd g :
  unusable_file pd ->
  result (C.generate_synthetic_data pd nm np ti sd) g = Returned [].
Proof.
  intro Hu.
  unfold C.generate_synthetic_data.
  destruct (meters_returns pd np ti sd (Z.to_nat nm) 1%Z g)
    as (rows & g' & E).
  unfold result. rewrite E. cbn [fst]. f_equal.
  eapply meters_unusable; [exact Hu | exact E].
Qed.

Lemma unusable_file_gives_empty_frame_witness :
  result (C.generate_synthetic_data ex_patterns_data_light 3 4 15 0) ex_rng
  = Returned [].
Proof.
  apply (unusable_file_gives_empty_frame ex_patterns_data_light 3%Z 4%Z 15%Z
           0%Z ex_rng).
  right. right. eexists. split; [reflexivity |].
  unfold off_unit_sum. vm_compute. intro H. apply H. reflexivity.
Defined.

(** *** The rows of one meter *)

Lemma choice_In {A} (a : list A) p g x g' :
  Np.choice a p g = (Returned x, g') -> In x a.
Proof.
  unfold Np.choice. intro H. bind_inv H. unfold index in H.
  destruct (nth_error a a0) eqn:En; [| discriminate].
  ret_inv H. eapply nth_error_In. exact En.
Qed.

Lemma cluster_walk_label cp cl ti n :
  forall st t g data g',
    C.walk cp cl ti n st t g = (Returned data, g') ->
    Forall (fun r => Py.int_of_str cl = Some (C.Cluster r)) data.
Proof.
  induction n as [| n IH]; intros st t g data g' H.
  - cbn [C.walk] in H. ret_inv H. constructor.
  - cbn [C.walk] in H. do 4 bind_inv H. ret_inv H. constructor.
    + cbn [C.Cluster]. unfold C.int in E1.
      destruct (Py.int_of_str cl); [ret_inv E1; reflexivity | discriminate].
    + eapply IH. exact E2.
Qed.

Lemma one_meter_rows pd id np ti sd g rows g' :
  C.one_meter pd id np ti sd g = (Returned rows, g') ->
  Forall (fun r => C.MeterID r = id) rows
  /\ map (fun r => C.TimeStamp (C.record r)) rows
     = period_starts sd ti (Z.to_nat np)
  /\ exists label,
       In label (cluster_labels pd)
       /\ Forall (fun r => Py.int_of_str label
                           = Some (C.Cluster (C.record r))) rows.
Proof.
  intro H. unfold C.one_meter in H. do 4 bind_inv H. ret_inv H.
  apply subscript_returned in E. destruct E as [Hp ->].
  apply subscript_returned in E1. destruct E1 as [_ ->].
  unfold C.generate_meter_data in E2. bind_inv E2.
  apply subscript_returned in E. destruct E as [_ ->].
  split; [| split].
  - apply Forall_map. apply Forall_forall. reflexivity.
  - rewrite map_map. cbn [C.record].
    exact (cluster_walk_timestamps _ _ _ _ _ _ _ _ _ E2).
  - exists a0. split.
    + unfold cluster_labels. rewrite Hp.
      eapply choice_In. exact E0.
    + apply Forall_map. cbn [C.record].
      eapply cluster_walk_label. exact E2.
Qed.






(** *** A cluster without a usable mixture *)

Lemma cluster_value_unusable cp tp hour dow g v g' :
  no_usable_mixture cp ->
  C.generate_consumption_value (C.gmm cp) tp hour dow g = (Returned v, g') ->
  v = 0.
Proof.
  unfold no_usable_mixture, C.generate_consumption_value. intros Hu H.
  apply try_except_returned in H. destruct H as [H | (e & g1 & _ & H)];
    [| ret_inv H; reflexivity].
  unfold C.sample_value in H. destruct (C.gmm cp) as [gp |];
    [| ret_inv H; reflexivity].
  exfalso. do 3 bind_inv H.
  apply subscript_returned in E. destruct E as [Hm ->].
  apply subscript_returned in E0. destruct E0 as [Hw ->].
  destruct Hu as [Hu | [Hu | [Hu | (ws & Hu & Hoff)]]]; try congruence.
  - assert (a = []) by congruence. subst a. discriminate.
  - assert (a0 = ws) by congruence. subst a0.
    rewrite (choice_index_off_unit_sum _ _ _ Hoff) in E1. discriminate.
Qed.

Lemma cluster_walk_unusable cp cl ti n :
  no_usable_mixture cp ->
  forall st t g data g',
    C.walk cp cl ti n st t g = (Returned data, g') ->
    Forall (fun r => C.Consumption r = 0) data.
Proof.
  intro Hu. induction n as [| n IH]; intros st t g data g' H.
  - cbn [C.walk] in H. ret_inv H. constructor.
  - cbn [C.walk] in H. do 4 bind_inv H. ret_inv H. constructor.
    + cbn [C.Consumption]. destruct (a =? 0)%Z.
      * ret_inv E0. reflexivity.
      * eapply cluster_value_unusable; eassumption.
    + eapply IH. exact E2.
Qed.

(** A meter of a cluster that has no mixture to sample ([gmm] missing or
    null, [means] or [weights] missing, no component, or weights that fail
    the sum-to-one test) reads 0 at every period: the sampler returns 0
    for a null mixture and catches every exception of the draw. *)
Theorem cluster_without_mixture_reads_zero
    patterns cluster sd np ti g data cp :
  Py.dict_get cluster patterns = Some cp ->
  no_usable_mixture cp ->
  result (C.generate_meter_data patterns cluster sd np ti) g = Returned data ->
  Forall (fun r => C.Consumption r = 0) data.
Proof.
  intros Hcp Hu H. apply result_returned in H.
  unfold C.generate_meter_data in H. bind_inv H.
  apply subscript_returned in E. destruct E as [Hc ->].
  assert (a = cp) by congruence. subst a.
  eapply cluster_walk_unusable; eassumption.
Qed.

Lemma cluster_without_mixture_reads_zero_witness :
  exists data,
    result (C.generate_meter_data [("0"%string, ex_cluster_no_component)]
              "0" 0 4 15) ex_rng_high = Returned data
    /\ Forall (fun r => C.Consumption r = 0) data.
Proof.
  eexists. split.
  - vm_compute. reflexivity.
  - match goal with
    | |- Forall _ ?l =>
        assert (E : result (C.generate_meter_data
                              [("0"%string, ex_cluster_no_component)]
                              "0" 0 4 15) ex_rng_high = Returned l)
          by (vm_compute; reflexivity)
    end.
    refine (cluster_without_mixture_reads_zero
              [("0"%string, ex_cluster_no_component)] "0" 0%Z 4%Z 15%Z
              ex_rng_high _ ex_cluster_no_component eq_refl _ E).
    right. right. left. reflexivity.
Defined.

(** ** Readings have two decimals *)

Lemma round2_two_decimals q : two_decimals (Py.round2 q).
Proof. exists (Py.round_half_even (q * 100)). reflexivity. Qed.

Lemma zero_two_decimals : two_decimals 0.
Proof. exists 0%Z. reflexivity. Qed.


Lemma cluster_value_two_decimals gp tp hour dow g v g' :
  C.generate_consumption_value gp tp hour dow g = (Returned v, g') ->
  two_decimals v.
Proof.
  unfold C.generate_consumption_value. intro H.
  apply try_except_returned in H. destruct H as [H | (e & g1 & _ & H)];
    [| ret_inv H; apply zero_two_decimals].
  unfold C.sample_value in H. destruct gp as [gm |];
    [| ret_inv H; apply zero_two_decimals].
  repeat bind_inv H. ret_inv H. apply round2_two_decimals.
Qed.




(** ** What the slot-grouped generator does not read *)

Lemma agree_ret {A} (R : A -> A -> Prop) a b g :
  R a b -> agree R (ret a g) (ret b g).
Proof. intro H. split; [reflexivity | exact H]. Qed.

Lemma agree_refl {A} (R : A -> A -> Prop) x :
  (forall a, R a a) -> agree R x x.
Proof.
  intro H. split; [reflexivity |]. destruct (fst x); [apply H | reflexivity].
Qed.

Lemma agree_sym {A} (R : A -> A -> Prop) x y :
  (forall a b, R a b -> R b a) -> agree R x y -> agree R y x.
Proof.
  intros H [Hs Hr]. split; [symmetry; exact Hs |].
  destruct (fst x), (fst y); auto.
Qed.

Lemma agree_trans {A} (R : A -> A -> Prop) x y z :
  (forall a b c, R a b -> R b c -> R a c) ->
  agree R x y -> agree R y z -> agree R x z.
Proof.
  intros H [Hs1 Hr1] [Hs2 Hr2]. split; [congruence |].
  destruct (fst x), (fst y), (fst z); try contradiction; try discriminate.
  - eapply H; eassumption.
  - congruence.
Qed.

Lemma agree_eq {A} (x y : outcome A * rng) : agree eq x y -> x = y.
Proof.
  destruct x as [ox gx], y as [oy gy]. intros [Hs Hr]. simpl in *. subst.
  destruct ox, oy; try contradiction; congruence.
Qed.

Lemma agree_bind {A B} (R : A -> A -> Prop) (R' : B -> B -> Prop)
    (m1 m2 : M A) (k1 k2 : A -> M B) g :
  agree R (m1 g) (m2 g) ->
  (forall a b g', R a b -> agree R' (k1 a g') (k2 b g')) ->
  agree R' (bind m1 k1 g) (bind m2 k2 g).
Proof.
  unfold agree, bind.
  destruct (m1 g) as [[a | e] g1], (m2 g) as [[b | e'] g2]; simpl;
    intros [Hs H] Hk; subst; try contradiction.
  - apply Hk, H.
  - split; reflexivity.
Qed.

(** Both sides run the same computation first. *)
Ltac agree_same :=
  eapply (agree_bind eq);
  [apply agree_refl; reflexivity | intros ? ? ? ->].

(** Both sides run computations that agree but for their results. *)
Ltac agree_any H :=
  eapply (agree_bind (fun _ _ => True)); [H | intros ? ? ? _].

Lemma bind_ret_l {A B} (a : A) (k : A -> M B) g : bind (ret a) k g = k a g.
Proof. reflexivity. Qed.

Lemma perturb_agree vf x y g :
  agree (fun _ _ => True) (S.perturb vf x g) (S.perturb vf y g).
Proof.
  unfold S.perturb, Np.normal_q, bind, raise, ret, Np.standard_normal, agree.
  destruct (Py.Qlt_bool vf 0); simpl; auto.
Qed.

Lemma vary_pattern_read vf tp g :
  agree (fun a b => read_slot a = read_slot b)
        (S.vary_pattern vf tp g) (S.vary_pattern vf (read_slot tp) g).
Proof.
  destruct tp as [ms ws cs pc cv tr zp bs]. unfold S.vary_pattern.
  cbn [read_slot S.gmm_means S.gmm_weights S.gmm_covariances S.percentiles
       S.common_values S.transitions S.zero_probability S.basic_stats].
  do 4 agree_same.
  destruct pc as [pc |]; cbn [option_map];
    [| apply agree_refl; reflexivity].
  agree_any ltac:(apply agree_ret; exact I).
  do 3 agree_same.
  destruct zp as [zp |]; cbn [option_map];
    [| apply agree_refl; reflexivity].
  agree_any ltac:(apply agree_ret; exact I).
  destruct bs as [[mean std lo hi] |]; cbn [option_map];
    [| apply agree_refl; reflexivity].
  cbn [subscript]. rewrite !bind_ret_l.
  cbn [read_stats S.stat_mean S.stat_std S.stat_min S.stat_max].
  destruct mean as [mean |]; cbn [option_map];
    [| apply agree_refl; reflexivity].
  cbn [subscript]. rewrite !bind_ret_l.
  agree_any ltac:(apply perturb_agree).
  do 3 agree_same.
  apply agree_ret. reflexivity.
Qed.

Lemma vary_slots_read vf sl :
  forall g,
    agree (fun a b => read_slots a = read_slots b)
          (S.vary_slots vf sl g) (S.vary_slots vf (read_slots sl) g).
Proof.
  induction sl as [| [time tp] t IH]; intro g.
  - apply agree_ret. reflexivity.
  - cbn [read_slots map fst snd S.vary_slots].
    eapply agree_bind; [apply vary_pattern_read | intros a b g1 Hab].
    eapply agree_bind; [apply IH | intros a' b' g2 Hab'].
    apply agree_ret. cbn [read_slots map fst snd].
    unfold read_slots in Hab'. rewrite Hab, Hab'. reflexivity.
Qed.

Lemma vary_day_read vf d g :
  agree (fun a b => read_day a = read_day b)
        (S.vary_day vf d g) (S.vary_day vf (read_day d) g).
Proof.
  unfold S.vary_day. cbn [read_day S.slots S.daily_sequence].
  eapply agree_bind; [apply vary_slots_read | intros a b g1 Hab].
  apply agree_ret. unfold read_day. cbn [S.slots S.daily_sequence].
  rewrite Hab. reflexivity.
Qed.

Lemma vary_patterns_read vf patterns :
  forall g,
    agree (fun a b => read_days a = read_days b)
          (S.vary_patterns vf patterns g)
          (S.vary_patterns vf (read_patterns patterns) g).
Proof.
  induction patterns as [| [day d] t IH]; intro g.
  - apply agree_ret. reflexivity.
  - unfold read_patterns. cbn [days_copied filter fst S.vary_patterns].
    destruct (String.eqb day "global_patterns") eqn:Eg; cbn [negb].
    + apply IH.
    + cbn [read_days map fst snd S.vary_patterns]. rewrite Eg.
      eapply agree_bind; [apply vary_day_read | intros a b g1 Hab].
      eapply agree_bind; [apply IH | intros a' b' g2 Hab'].
      apply agree_ret. cbn [read_days map fst snd].
      unfold read_days in Hab'. rewrite Hab, Hab'. reflexivity.
Qed.

Lemma dict_get_map {V} (f : V -> V) k (d : list (string * V)) :
  Py.dict_get k (map (fun kv => (fst kv, f (snd kv))) d)
  = option_map f (Py.dict_get k d).
Proof.
  induction d as [| [k' v] t IH]; cbn [map Py.dict_get fst snd];
    [reflexivity |].
  destruct (String.eqb k k'); [reflexivity | exact IH].
Qed.

Lemma truthy_read tp : S.truthy (read_slot tp) = S.truthy tp.
Proof.
  destruct tp as [ms ws cs pc cv tr zp bs].
  destruct ms, ws, cs, pc, cv, tr, zp, bs; reflexivity.
Qed.

Lemma active_slot_read mp t :
  S.active_slot (read_days mp) t
  = option_map (fun p => (read_slot (fst p), snd p)) (S.active_slot mp t).
Proof.
  unfold S.active_slot, read_days. rewrite dict_get_map.
  destruct (Py.dict_get (Time.day_name t) mp) as [d |]; [| reflexivity].
  cbn [option_map read_day S.slots S.daily_sequence].
  unfold read_slots. rewrite dict_get_map.
  destruct (Py.dict_get (Time.strftime_HM t) (S.slots d)) as [tp |];
    [| reflexivity].
  cbn [option_map]. rewrite truthy_read.
  destruct (S.truthy tp); [| reflexivity].
  destruct (S.daily_sequence d); reflexivity.
Qed.

Lemma slot_step_read mp t prev g :
  S.slot_step (read_days mp) t prev g = S.slot_step mp t prev g.
Proof.
  unfold S.slot_step. rewrite active_slot_read.
  destruct (S.active_slot mp t) as [[tp ds] |]; [| reflexivity].
  cbn [option_map fst snd].
  destruct tp as [ms ws cs pc cv tr zp bs].
  destruct bs as [[mean std lo hi] |]; reflexivity.
Qed.

Lemma walk_read mp oid ts :
  forall prev g,
    S.walk (read_days mp) oid ts prev g = S.walk mp oid ts prev g.
Proof.
  induction ts as [| t ts IH]; intros prev g; [reflexivity |].
  cbn [S.walk]. unfold bind at 1 3. rewrite slot_step_read.
  destruct (S.slot_step mp t prev g) as [[[c prev'] | e] g1];
    [| reflexivity].
  unfold bind. rewrite IH. reflexivity.
Qed.

(** The readings of a meter do not depend on what the pattern file holds
    under [global_patterns], nor on the values under [percentiles],
    [zero_probability] and the [mean] of the basic statistics of a slot,
    which must only be present: two files that agree on everything else
    give the same readings, or the same exception, and leave the generator
    in the same state. *)
Theorem unread_fields_are_immaterial patterns patterns' s e oid vf g :
  read_patterns patterns = read_patterns patterns' ->
  S.generate_meter_data patterns s e oid vf g
  = S.generate_meter_data patterns' s e oid vf g.
Proof.
  intro H. apply agree_eq. unfold S.generate_meter_data.
  eapply (agree_bind (fun a b => read_days a = read_days b)).
  - eapply agree_trans; [| apply vary_patterns_read |].
    + intros a b c. congruence.
    + rewrite H. apply agree_sym; [intros a b; congruence |].
      apply vary_patterns_read.
  - intros a b g' Hab. unfold bind.
    rewrite <- (walk_read a), <- (walk_read b), Hab.
    apply agree_refl. reflexivity.
Qed.

Lemma unread_fields_are_immaterial_witness :
  S.generate_meter_data ex_patterns 0 1800 1 (1 # 10) ex_rng
  = S.generate_meter_data ex_patterns_other 0 1800 1 (1 # 10) ex_rng.
Proof.
  apply (unread_fields_are_immaterial ex_patterns ex_patterns_other 0%Z
           1800%Z 1%Z (1 # 10) ex_rng).
  reflexivity.
Defined.

(** ** Zero periods *)

(** In an hour listed in [zero_periods] and not in [peak_times], a uniform
    deviate below 0.8 forces the reading to 0 without calling the sampler,
    and [previous_value] becomes 0 as well, whatever it was: the next
    timestamp starts from the zero state. *)
Theorem zero_period_resets_state mp t prev g tp ds peaks zeros :
  S.active_slot mp t = Some (tp, ds) ->
  S.peak_times ds = Some peaks -> S.zero_periods ds = Some zeros ->
  Py.mem_Z (Time.hour t) peaks = false ->
  Py.mem_Z (Time.hour t) zeros = true ->
  next_uniform g < 8 # 10 ->
  S.slot_step mp t prev g = (Returned (0, 0), skip_uniform g).
Proof.
  intros Ha Hp Hz Hnp Hzh Hu. unfold S.slot_step. rewrite Ha.
  unfold S.modulated_value. rewrite Hp, Hz.
  apply Qlt_bool_true in Hu. unfold next_uniform in Hu.
  unfold bind, subscript, Np.random, ret. cbn beta iota zeta.
  rewrite Hnp, Hzh. cbn beta iota. rewrite Hu. reflexivity.
Qed.

Lemma zero_period_resets_state_witness :
  S.slot_step ex_patterns_night 0 5 ex_rng
  = (Returned (0, 0), skip_uniform ex_rng).
Proof.
  refine (zero_period_resets_state ex_patterns_night 0%Z 5 ex_rng ex_slot
            _ [7%Z] [0%Z] eq_refl eq_refl eq_refl eq_refl eq_refl _).
  reflexivity.
Defined.

(** ** Transitions that are missing *)

(** The sampler of the slot-grouped generator has no default for the
    transitions: when the slot has no [transitions], or these lack the
    probability of the current state, it raises [KeyError], one uniform
    deviate having been drawn. *)
Theorem slot_sampler_needs_transitions tp prev g :
  transition_read tp prev = None ->
  S.generate_consumption_value tp prev g = (Raised KeyError, skip_uniform g).
Proof.
  unfold transition_read, S.generate_consumption_value, S.should_be_zero.
  intro H. unfold bind at 1. unfold bind at 1. unfold Np.random at 1.
  cbn beta iota.
  destruct (S.transitions tp) as [tr |]; [| reflexivity].
  cbn [subscript]. rewrite bind_ret_l.
  destruct (Qeq_bool prev 0); rewrite H; reflexivity.
Qed.

Lemma slot_sampler_needs_transitions_witness :
  S.generate_consumption_value ex_slot_no_transitions 0 ex_rng
  = (Raised KeyError, skip_uniform ex_rng).
Proof.
  exact (slot_sampler_needs_transitions ex_slot_no_transitions 0 ex_rng
           eq_refl).
Defined.

(** ** The sampler of the cluster generator *)

(** The sampler of the cluster generator never raises, whatever the
    mixture and the temporal patterns hold: it returns a value, which is
    not negative and has at most two decimals, the value being 0 when the
    draw raised. *)
Theorem cluster_sampler_never_raises gp tp hour dow g :
  exists v g',
    C.generate_consumption_value gp tp hour dow g = (Returned v, g')
    /\ 0 <= v /\ two_decimals v.
Proof.
  destruct (try_except_ret (C.sample_value gp tp hour dow) 0 g)
    as (v & g' & E).
  exists v, g'. split; [exact E |]. split.
  - eapply cluster_value_nonneg. exact E.
  - eapply cluster_value_two_decimals. exact E.
Qed.

(** ** One meter is enough *)

(** The run of the slot-grouped generator survives the meters that fail:
    if one task returns a frame with at least one row, a frame is written,
    and it holds every row of every task that returned. *)
Theorem one_success_suffices
    patterns s e base vf task_rng completion i data :
  In i completion ->
  result (S.generate_meter_data patterns s e (base + Z.of_nat i) vf)
         (task_rng i) = Returned data ->
  data <> [] ->
  exists final,
    S.generate_synthetic_data patterns s e base vf task_rng completion
    = Returned final
    /\ forall j data',
         In j completion ->
         result (S.generate_meter_data patterns s e (base + Z.of_nat j) vf)
                (task_rng j) = Returned data' ->
         incl data' final.
Proof.
  intros Hi Hr Hne.
  assert (Hin : forall j data',
             In j completion ->
             result (S.generate_meter_data patterns s e (base + Z.of_nat j)
                       vf) (task_rng j) = Returned data' ->
             In data' (S.collect patterns s e base vf task_rng completion)).
  { intros j data' Hj Hd. unfold S.collect. apply in_flat_map.
    exists j. split; [exact Hj |]. unfold result in Hd. rewrite Hd.
    left. reflexivity. }
  pose proof (Hin i data Hi Hr) as Hc.
  unfold S.generate_synthetic_data.
  destruct (S.collect patterns s e base vf task_rng completion)
    as [| d ds] eqn:Ec; [destruct Hc |].
  destruct (List.concat (d :: ds)) as [| r rs] eqn:Ef.
  - exfalso. apply Hne.
    pose proof (proj1 (concat_nil_Forall (d :: ds)) Ef) as Hall.
    rewrite Forall_forall in Hall. exact (Hall data Hc).
  - eexists. split; [reflexivity |].
    intros j data' Hj Hd x Hx.
    eapply Permutation_in; [apply Permutation_sym, sort_values_permutation |].
    rewrite <- Ef. apply in_concat. exists data'. split; [| exact Hx].
    exact (Hin j data' Hj Hd).
Qed.

Lemma one_success_suffices_witness :
  exists final,
    S.generate_synthetic_data ex_patterns 0 1800 1 (1 # 10)
      (fun _ => ex_rng) [1%nat; 0%nat] = Returned final.
Proof.
  assert (E : exists data,
             result (S.generate_meter_data ex_patterns 0 1800
                       (1 + Z.of_nat 0) (1 # 10)) ex_rng = Returned data
             /\ data <> []).
  { eexists. split; [vm_compute; reflexivity | discriminate]. }
  destruct E as (data & E & Hne).
  destruct (one_success_suffices ex_patterns 0%Z 1800%Z 1%Z (1 # 10)
              (fun _ => ex_rng) [1%nat; 0%nat] 0%nat data
              (or_intror (or_introl eq_refl)) E Hne) as (final & Hf & _).
  exists final. exact Hf.
Defined.

(** ** The size of the cluster frame *)

Lemma meters_count pd np ti sd n :
  forall id g rows g',
    C.meters pd np ti sd n id g = (Returned rows, g') ->
    exists k, (k <= n)%nat /\ List.length rows = (k * Z.to_nat np)%nat.
Proof.
  induction n as [| n IH]; intros id g rows g' H.
  - cbn [C.meters] in H. ret_inv H. exists 0%nat. split; [lia | reflexivity].
  - cbn [C.meters] in H. do 2 bind_inv H. ret_inv H.
    destruct (IH _ _ _ _ E0) as (k & Hk & Hl).
    rewrite length_app, Hl.
    apply try_except_returned in E. destruct E as [E | (e & gx & _ & E)].
    + apply one_meter_rows in E. destruct E as (_ & Ht & _).
      apply (f_equal (@List.length Z)) in Ht.
      unfold period_starts in Ht. rewrite !length_map, length_seq in Ht.
      exists (S k). split; [lia |]. rewrite Ht. reflexivity.
    + ret_inv E. exists k. split; [lia | reflexivity].
Qed.

(** The frame of the cluster generator has [num_periods] rows for each
    meter that succeeded, and so a multiple of [num_periods], at most
    [num_meters] times: it is empty when the number of meters or the
    number of periods is zero or negative. *)
Theorem cluster_frame_rows pd nm np ti sd g rows :
  result (C.generate_synthetic_data pd nm np ti sd) g = Returned rows ->
  (exists k,
      (k <= Z.to_nat nm)%nat
      /\ List.length rows = (k * Z.to_nat np)%nat)
  /\ ((nm <= 0)%Z \/ (np <= 0)%Z -> rows = []).
Proof.
  intro H. apply result_returned in H.
  unfold C.generate_synthetic_data in H.
  destruct (meters_count _ _ _ _ _ _ _ _ _ H) as (k & Hk & Hl).
  split; [exists k; split; assumption |].
  intro Hz. apply length_zero_iff_nil. rewrite Hl.
  destruct Hz as [Hz | Hz].
  - assert (k = 0)%nat by lia. subst k. reflexivity.
  - assert (Z.to_nat np = 0)%nat by lia. lia.
Qed.

Lemma cluster_frame_rows_witness :
  exists rows,
    result (C.generate_synthetic_data ex_patterns_data 2 2 15 0) ex_rng_high
    = Returned rows
    /\ exists k, (k <= 2)%nat /\ List.length rows = (k * 2)%nat.
Proof.
  eexists. split.
  - vm_compute. reflexivity.
  - match goal with
    | |- exists k, _ /\ List.length ?l = _ =>
        assert (E : result (C.generate_synthetic_data ex_patterns_data 2 2 15
                              0) ex_rng_high = Returned l)
          by (vm_compute; reflexivity)
    end.
    exact (proj1 (cluster_frame_rows ex_patterns_data 2%Z 2%Z 15%Z 0%Z
                    ex_rng_high _ E)).
Defined.
